(** * Respiratory mortality analysis: feature pipeline, training engine,
      model registry and job submission

    A shallow embedding of the Python sources

      - [app/services/data_processor.py]   (class [DataProcessor])
      - [app/services/ml_service.py]       (class [MLService])
      - [app/api/v1/endpoints/models.py]   ([start_model_training], [activate_model])
      - [app/tasks/training_tasks.py]      ([train_model_task], [cleanup_old_models])
      - [scripts/model_management.py]      ([ModelManager.cleanup_old_models])
      - [scripts/init_database.py]         (the placeholder model row)

    Modelling conventions.

    - A pandas [DataFrame] is a finite map from column names to columns; a
      column is a list of text cells or a list of numeric cells.
    - [float64] values are modelled by exact rationals ([Q]).  Non-finite
      floats are not represented: a division by a zero population yields [0]
      here where pandas yields [inf] or [NaN].
    - A Python exception is a value of [PyError]; a function that can raise
      returns a [result].
    - A method that mutates [self] takes the object and returns the new one
      next to its result; the mutations made before an exception persist.
    - The tables of the relational store are lists of rows in storage order;
      a query without [ORDER BY] returns the matching rows in that order.
    - A function body is evaluated with the names that its module binds: a
      name that the module neither imports nor defines raises [NameError]
      where the body evaluates it. *)

From Stdlib Require Import QArith Qround PrimFloat.
From stdpp Require Import gmap strings list fin_maps sorting.

Set Default Proof Using "Type".

(** ** Exceptions and results *)

Inductive PyError : Type :=
| ValueError (msg : string)
| KeyError (key : string)
| TypeError (msg : string)
| NotFittedError
| IntegrityError
| NameError (name : string)
| HTTPException (status_code : Z) (detail : string).

Inductive result (A : Type) : Type :=
| Ok (a : A)
| Err (e : PyError).
Arguments Ok {A} a.
Arguments Err {A} e.

#[export] Instance result_ret : MRet result := fun A a => Ok a.
#[export] Instance result_bind : MBind result := fun A B k r =>
  match r with
  | Ok a => k a
  | Err e => Err e
  end.

Definition is_ok {A} (r : result A) : bool :=
  match r with Ok _ => true | Err _ => false end.

(** A global name in a function body resolves when the module binds it, by
    an import or a definition of its own; evaluating any other name raises
    [NameError]. *)
Definition global_name (module_names : list string) (name : string) : result unit :=
  if existsb (String.eqb name) module_names then Ok () else Err (NameError name).

(** ** pandas: columns, frames, quantiles *)

Module Pandas.

Inductive Column : Type :=
| ColStr (xs : list string)
| ColNum (xs : list Q).

Definition col_length (c : Column) : nat :=
  match c with ColStr xs => length xs | ColNum xs => length xs end.

(** [df[name]]: raises [KeyError] when the column is absent. *)
Definition getitem (df : gmap string Column) (name : string) : result Column :=
  match df !! name with
  | Some c => Ok c
  | None => Err (KeyError name)
  end.

(** A column used in arithmetic, [qcut], [median] or the scaler has to be
    numeric; the text cells of this data set are not numerals. *)
Definition to_numeric (c : Column) : result (list Q) :=
  match c with
  | ColNum xs => Ok xs
  | ColStr _ => Err (TypeError "unsupported operand type(s): 'str'")
  end.

(** [.astype(int)] on a boolean column. *)
Definition astype_int (b : bool) : Q := if b then 1%Q else 0%Q.

(** [series == value] for a text value: numeric cells never equal it. *)
Definition eq_str (c : Column) (v : string) : list bool :=
  match c with
  | ColStr xs => map (fun x => String.eqb x v) xs
  | ColNum xs => map (fun _ => false) xs
  end.

(** [series.isin(values)] for a list of text values. *)
Definition isin (c : Column) (vs : list string) : list bool :=
  match c with
  | ColStr xs => map (fun x => existsb (String.eqb x) vs) xs
  | ColNum xs => map (fun _ => false) xs
  end.

Fixpoint insert_sorted (x : Q) (l : list Q) : list Q :=
  match l with
  | [] => [x]
  | y :: l' => if Qle_bool x y then x :: l else y :: insert_sorted x l'
  end.

Definition sort_values (xs : list Q) : list Q := foldr insert_sorted [] xs.

(** [series.quantile(q)] with the default linear interpolation: position
    [(n - 1) * q] in the sorted values; [None] stands for the [NaN] that
    pandas returns on an empty series. *)
Definition quantile (xs : list Q) (q : Q) : option Q :=
  let s := sort_values xs in
  match s with
  | [] => None
  | x0 :: _ =>
      let h := (inject_Z (Z.of_nat (length s) - 1) * q)%Q in
      let lo := Z.to_nat (Qfloor h) in
      let a := nth lo s x0 in
      let b := nth (S lo) s a in
      Some (a + (b - a) * (h - inject_Z (Qfloor h)))%Q
  end.

Definition median (xs : list Q) : option Q := quantile xs (1 # 2).

(** [series > threshold]; a comparison with [NaN] is false. *)
Definition gt (xs : list Q) (threshold : option Q) : list bool :=
  match threshold with
  | Some t => map (fun x => negb (Qle_bool x t)) xs
  | None => map (fun _ => false) xs
  end.

Fixpoint all_distinct (l : list Q) : bool :=
  match l with
  | [] => true
  | x :: l' => negb (existsb (Qeq_bool x) l') && all_distinct l'
  end.

Fixpoint sequence_options {A} (l : list (option A)) : option (list A) :=
  match l with
  | [] => Some []
  | Some x :: l' => option_map (cons x) (sequence_options l')
  | None :: _ => None
  end.

(** The [q + 1] bin edges of [pd.qcut(series, q)]: the quantiles at
    [0, 1/q, ..., 1]. *)
Definition qcut_bins (xs : list Q) (q : positive) : option (list Q) :=
  sequence_options
    (map (fun k => quantile xs (Z.of_nat k # q)) (seq 0 (S (Pos.to_nat q)))).

(** The bucket of a value: [searchsorted(bins, x, side='left')], with the
    lowest edge included in the first bucket. *)
Definition bucket (bins : list Q) (x : Q) : nat :=
  match bins with
  | [] => 0
  | b0 :: _ =>
      if Qeq_bool x b0 then 0
      else pred (length (List.filter (fun b => negb (Qle_bool x b)) bins))
  end.

(** [pd.qcut(series, q, labels)]: raises [ValueError] when the bin edges
    are not unique (also on an empty series, whose edges are all [NaN]). *)
Definition qcut (xs : list Q) (q : positive) (labels : list string)
  : result (list string) :=
  match qcut_bins xs q with
  | None => Err (ValueError "Bin edges must be unique")
  | Some bins =>
      if all_distinct bins
      then Ok (map (fun x => nth (bucket bins x) labels "nan"%string) xs)
      else Err (ValueError "Bin edges must be unique")
  end.

End Pandas.
Export Pandas.

Abbreviation DataFrame := (gmap string Column).

(** ** scikit-learn: [LabelEncoder] and [StandardScaler] *)

Module Sklearn.

Section Unique.
Context {A : Type} (cmp : A -> A -> comparison).

(** Insertion into a sorted list without duplicates. *)
Fixpoint insert_unique (x : A) (l : list A) : list A :=
  match l with
  | [] => [x]
  | y :: l' =>
      match cmp x y with
      | Lt => x :: l
      | Eq => l
      | Gt => y :: insert_unique x l'
      end
  end.

(** [np.unique]: the sorted distinct values. *)
Definition unique (xs : list A) : list A := foldr insert_unique [] xs.

Definition seen (classes : list A) (x : A) : bool :=
  existsb (fun c => match cmp x c with Eq => true | _ => false end) classes.

(** The code of a label: its rank among the classes. *)
Definition code (classes : list A) (x : A) : Q :=
  inject_Z (Z.of_nat (length (List.filter
    (fun c => match cmp c x with Lt => true | _ => false end) classes))).

Definition encode (classes : list A) (xs : list A) : result (list Q) :=
  if forallb (seen classes) xs
  then Ok (map (code classes) xs)
  else Err (ValueError "y contains previously unseen labels").
End Unique.

(** A fitted [LabelEncoder]: its [classes_]. *)
Inductive LabelEncoder : Type :=
| LEStr (classes_ : list string)
| LENum (classes_ : list Q).

Definition le_fit (c : Column) : LabelEncoder :=
  match c with
  | ColStr xs => LEStr (unique String.compare xs)
  | ColNum xs => LENum (unique Qcompare xs)
  end.

(** [le.transform(series)]: raises [ValueError] on a label that is not
    among [classes_]; an empty series is returned empty. *)
Definition le_transform (le : LabelEncoder) (c : Column) : result (list Q) :=
  match le, c with
  | LEStr cs, ColStr xs => encode String.compare cs xs
  | LENum cs, ColNum xs => encode Qcompare cs xs
  | LEStr _, ColNum xs | LENum _, ColStr xs =>
      match xs with
      | [] => Ok []
      | _ :: _ => Err (ValueError "y contains previously unseen labels")
      end
  end.

(** [le.fit_transform(series)]: the classes are the distinct values of the
    series, each value is replaced by its rank. *)
Definition le_fit_transform (c : Column) : LabelEncoder * list Q :=
  let le := le_fit c in
  (le,
   match c with
   | ColStr xs => map (code String.compare (unique String.compare xs)) xs
   | ColNum xs => map (code Qcompare (unique Qcompare xs)) xs
   end).

Definition Qsum (xs : list Q) : Q := foldr Qplus 0%Q xs.

Definition Qmean (xs : list Q) : Q :=
  (Qsum xs / inject_Z (Z.of_nat (length xs)))%Q.

Section Scaler.
(** The rounded square root of the floating-point unit. *)
Variable fsqrt : Q -> Q.

(** Per feature: [mean_] and [scale_]; a constant feature is scaled
    by one. *)
Definition fit_feature (xs : list Q) : Q * Q :=
  let m := Qmean xs in
  let var := Qmean (map (fun x => ((x - m) * (x - m))%Q) xs) in
  (m, if Qeq_bool var 0 then 1%Q else fsqrt var).

Definition transform_feature (p : Q * Q) (xs : list Q) : list Q :=
  map (fun x => ((x - p.1) / p.2)%Q) xs.

Definition fit_features (cols : list (list Q)) : list (Q * Q) :=
  map fit_feature cols.

Definition transform_features (params : list (Q * Q)) (cols : list (list Q))
  : list (list Q) :=
  zip_with transform_feature params cols.
End Scaler.

(** Input validation of the scaler ([check_array]): the cells must convert
    to floats and there must be at least one row. *)
Definition as_float_array (c : Column) : result (list Q) :=
  match c with
  | ColNum xs => Ok xs
  | ColStr [] => Ok []
  | ColStr (_ :: _) => Err (ValueError "could not convert string to float")
  end.

Definition check_array (cols : list Column) : result (list (list Q)) :=
  nums ← mapM as_float_array cols;
  match nums with
  | [] :: _ => Err (ValueError "Found array with 0 sample(s)")
  | _ => Ok nums
  end.

End Sklearn.
Export Sklearn.

(** ** [app/services/data_processor.py] *)

Module DataProcessorModel.

(** The object state: [self.scaler] ([None] while it is not fitted) and the
    dictionary [self.label_encoders]. *)
Record DataProcessor : Type := {
  scaler : option (list (Q * Q));
  label_encoders : gmap string LabelEncoder
}.

(** [DataProcessor()] *)
Definition init : DataProcessor :=
  {| scaler := None; label_encoders := ∅ |}.

Definition categorical_columns : list string :=
  ["county"; "ten_year_age_groups"; "gender"; "icd_10_113_cause_list"; "state"].

Definition feature_columns : list string :=
  ["county"; "ten_year_age_groups"; "gender"; "year"; "population"; "state"].

Definition west_coast_states : list string := ["California"; "Oregon"; "Washington"].
Definition east_coast_states : list string := ["New York"; "Massachusetts"; "Florida"].

(** Line 55: [(df['deaths'] / df['population']) * 100000]. *)
Definition mortality_rate (deaths population : Q) : Q :=
  (deaths / population * 100000)%Q.

(** [engineer_features], lines 51-77.  Nothing of [self] is read or
    written: every statistic comes from the frame that is passed in. *)
Definition engineer_features_frame (df : DataFrame) : result DataFrame :=
  deaths ← getitem df "deaths" ≫= to_numeric;
  population ← getitem df "population" ≫= to_numeric;
  let rate := zip_with mortality_rate deaths population in
  let df := <["mortality_rate" := ColNum rate]> df in
  let high := gt rate (quantile rate (3 # 4)) in
  let df := <["high_mortality" := ColNum (map astype_int high)]> df in
  gender ← getitem df "gender";
  let df := <["is_male" := ColNum (map astype_int (eq_str gender "Male"))]> df in
  category ← qcut rate 5 ["Very Low"; "Low"; "Medium"; "High"; "Very High"];
  let df := <["mortality_category" := ColStr category]> df in
  population ← getitem df "population" ≫= to_numeric;
  density ← qcut population 3 ["Low Density"; "Medium Density"; "High Density"];
  let df := <["population_density" := ColStr density]> df in
  state ← getitem df "state";
  let df := <["is_west_coast" := ColNum (map astype_int (isin state west_coast_states))]> df in
  state ← getitem df "state";
  let df := <["is_east_coast" := ColNum (map astype_int (isin state east_coast_states))]> df in
  Ok df.

Definition engineer_features (df : DataFrame) (self : DataProcessor)
  : result DataFrame * DataProcessor :=
  (engineer_features_frame df, self).

(** Lines 84-88: the fitting loop over the categorical columns. *)
Definition fit_encoders_step (acc : DataFrame * gmap string LabelEncoder)
  (column : string) : DataFrame * gmap string LabelEncoder :=
  match acc.1 !! column with
  | Some c =>
      let '(le, codes) := le_fit_transform c in
      (<[column := ColNum codes]> acc.1, <[column := le]> acc.2)
  | None => acc
  end.

Definition fit_encoders_loop (columns : list string)
  (acc : DataFrame * gmap string LabelEncoder)
  : DataFrame * gmap string LabelEncoder :=
  foldl fit_encoders_step acc columns.

(** Lines 90-92: the transforming loop; a column is encoded only when it
    is in the frame and has an encoder. *)
Fixpoint transform_encoders_loop (encoders : gmap string LabelEncoder)
  (columns : list string) (df : DataFrame) : result DataFrame :=
  match columns with
  | [] => Ok df
  | column :: columns' =>
      match df !! column, encoders !! column with
      | Some c, Some le =>
          codes ← le_transform le c;
          transform_encoders_loop encoders columns' (<[column := ColNum codes]> df)
      | _, _ => transform_encoders_loop encoders columns' df
      end
  end.

(** [df[columns]]: the selected columns in the requested order. *)
Definition select (df : DataFrame) (columns : list string)
  : result (list (string * Column)) :=
  mapM (fun name => c ← getitem df name; Ok (name, c)) columns.

(** [X[name] = values] on a frame with ordered columns. *)
Definition assign (X : list (string * Column)) (name : string) (c : Column)
  : list (string * Column) :=
  map (fun nc => if String.eqb nc.1 name then (name, c) else nc) X.

Definition lookup_column (X : list (string * Column)) (name : string) : result Column :=
  match List.find (fun nc => String.eqb nc.1 name) X with
  | Some nc => Ok nc.2
  | None => Err (KeyError name)
  end.

(** Line 102: [(df['deaths'] > df['deaths'].median()).astype(int)]. *)
Definition labels (df : DataFrame) : result (list Q) :=
  deaths ← getitem df "deaths" ≫= to_numeric;
  Ok (map astype_int (gt deaths (median deaths))).

Section WithSqrt.
Variable fsqrt : Q -> Q.

(** The two scaled columns are put back into [X] (lines 98 and 100). *)
Definition assign_scaled (X : list (string * Column)) (scaled : list (list Q))
  : list (string * Column) :=
  assign (assign X "year" (ColNum (nth 0 scaled [])))
         "population" (ColNum (nth 1 scaled [])).

(** [prepare_model_data], lines 79-104. *)
Definition prepare_model_data (df : DataFrame) (fit_encoders : bool)
  (self : DataProcessor)
  : result (list (string * Column) * list Q) * DataProcessor :=
  if fit_encoders then
    let '(df_encoded, encoders) :=
      fit_encoders_loop categorical_columns (df, label_encoders self) in
    let self := {| scaler := scaler self; label_encoders := encoders |} in
    match select df_encoded feature_columns with
    | Err e => (Err e, self)
    | Ok X =>
        (* [self.scaler.fit_transform]: [fit] resets the scaler first. *)
        match
          year ← lookup_column X "year";
          population ← lookup_column X "population";
          check_array [year; population]
        with
        | Err e => (Err e, {| scaler := None; label_encoders := encoders |})
        | Ok cols =>
            let params := fit_features fsqrt cols in
            let self := {| scaler := Some params; label_encoders := encoders |} in
            let X := assign_scaled X (transform_features params cols) in
            match labels df_encoded with
            | Err e => (Err e, self)
            | Ok y => (Ok (X, y), self)
            end
        end
    end
  else
    (df_encoded ← transform_encoders_loop (label_encoders self) categorical_columns df;
     X ← select df_encoded feature_columns;
     year ← lookup_column X "year";
     population ← lookup_column X "population";
     params ← match scaler self with
              | Some params => Ok params
              | None => Err NotFittedError
              end;
     cols ← check_array [year; population];
     if negb (Nat.eqb (length params) (length cols))
     then Err (ValueError "X has 2 features, but StandardScaler is expecting another number")
     else
       let X := assign_scaled X (transform_features params cols) in
       y ← labels df_encoded;
       Ok (X, y),
     self).
End WithSqrt.

End DataProcessorModel.
Export DataProcessorModel.

(** Line 55 read in binary64 arithmetic, for the examples of the tests. *)
Definition mortality_rate_binary64 (deaths population : float) : float :=
  (deaths / population * 100000)%float.

(** ** Test data and specification predicates of the feature pipeline

    The square root used when the model is run on concrete frames: exact on
    the squares of rationals. *)
Definition sqrt_exact (q : Q) : Q :=
  let r := Qred q in Z.sqrt (Qnum r) # Pos.sqrt (Qden r).

(** The two records of the specification's example: 25 deaths among 10000
    and 150 deaths among 50000. *)
Definition example_frame : DataFrame :=
  <["county" := ColStr ["Test County"; "Los Angeles County"] ]>
  (<["ten_year_age_groups" := ColStr ["65-74 years"; "75-84 years"] ]>
  (<["gender" := ColStr ["Male"; "Female"] ]>
  (<["year" := ColNum [2020; 2019]%Q ]>
  (<["icd_10_113_cause_list" :=
       ColStr ["Chronic lower respiratory diseases"; "Pneumonia"] ]>
  (<["deaths" := ColNum [25; 150]%Q ]>
  (<["population" := ColNum [10000; 50000]%Q ]>
  (<["state" := ColStr ["California"; "California"] ]> ∅))))))).

Definition frame_of (r : result DataFrame) : DataFrame :=
  match r with Ok df => df | Err _ => ∅ end.

Definition example_engineered : DataFrame :=
  Eval vm_compute in frame_of (engineer_features_frame example_frame).

(** A frame seen after fitting: its first record is the first record of
    [example_frame], its second record has a low rate and a small
    population. *)
Definition later_frame : DataFrame :=
  <["county" := ColStr ["Test County"; "Cook County"] ]>
  (<["ten_year_age_groups" := ColStr ["65-74 years"; "75-84 years"] ]>
  (<["gender" := ColStr ["Male"; "Female"] ]>
  (<["year" := ColNum [2020; 2019]%Q ]>
  (<["icd_10_113_cause_list" :=
       ColStr ["Chronic lower respiratory diseases"; "Pneumonia"] ]>
  (<["deaths" := ColNum [25; 1]%Q ]>
  (<["population" := ColNum [10000; 2000]%Q ]>
  (<["state" := ColStr ["California"; "Illinois"] ]> ∅))))))).

Definition later_engineered : DataFrame :=
  Eval vm_compute in frame_of (engineer_features_frame later_frame).

(** The processor after [prepare_model_data(..., fit_encoders=True)] on the
    engineered example frame. *)
Definition example_fitted : DataProcessor :=
  (prepare_model_data sqrt_exact example_engineered true init).2.

(** The cell of a column at a row. *)
Definition cell (df : DataFrame) (name : string) (i : nat) : option (string + Q) :=
  match df !! name with
  | Some (ColStr xs) => inl <$> xs !! i
  | Some (ColNum xs) => inr <$> xs !! i
  | None => None
  end.

(** A label of the column that the encoder has not seen. *)
Definition has_unseen_label (le : LabelEncoder) (c : Column) : Prop :=
  match le, c with
  | LEStr classes, ColStr xs => exists x, x ∈ xs /\ x ∉ classes
  | LENum classes, ColNum xs =>
      exists x, x ∈ xs /\ forall y, y ∈ classes -> ~ (x == y)%Q
  | LEStr _, ColNum xs | LENum _, ColStr xs => xs <> []
  end.

Definition unseen_labels_error : PyError :=
  ValueError "y contains previously unseen labels".

Definition matrix_of {A B} (r : result (list A * list B)) : list A * list B :=
  match r with Ok m => m | Err _ => ([], []) end.

Definition example_X : list (string * Column) :=
  Eval vm_compute in
    (matrix_of (prepare_model_data sqrt_exact example_engineered true init).1).1.

Definition example_y : list Q :=
  Eval vm_compute in
    (matrix_of (prepare_model_data sqrt_exact example_engineered true init).1).2.

(** The example frame without its cause-of-death column, and the processor
    fitted on it: it has no encoder for that column. *)
Definition frame_without_cause : DataFrame :=
  delete "icd_10_113_cause_list" example_frame.

Definition fitted_without_cause : DataProcessor :=
  (prepare_model_data sqrt_exact frame_without_cause true init).2.

(** ** [app/models/database.py] and the model registry *)

Module Registry.

(** Hyperparameter values of the dictionaries passed around. *)
Inductive HyperValue : Type :=
| HInt (n : Z)
| HNum (x : Q)
| HStr (s : string)
| HNone.

(** A row of the table [ml_models]; [created_at] is a time in seconds.  The
    column [hyperparameters] holds the JSON text of the dictionary, kept
    here as the dictionary itself. *)
Record MLModel : Type := {
  id : Z;
  model_name : string;
  model_version : string;
  model_type : string;
  accuracy : Q;
  precision : Q;
  recall : Q;
  f1_score : Q;
  auc_score : Q;
  is_active : bool;
  mlflow_run_id : string;
  hyperparameters : list (string * HyperValue);
  created_at : Z
}.

(** The registry: the rows of [ml_models] in storage order and the files of
    the model directory. *)
Record Store : Type := {
  ml_models : list MLModel;
  files : gset string
}.

Definition empty_store : Store := {| ml_models := []; files := ∅ |}.

Definition set_active (b : bool) (m : MLModel) : MLModel :=
  {| id := id m; model_name := model_name m; model_version := model_version m;
     model_type := model_type m; accuracy := accuracy m; precision := precision m;
     recall := recall m; f1_score := f1_score m; auc_score := auc_score m;
     is_active := b; mlflow_run_id := mlflow_run_id m;
     hyperparameters := hyperparameters m; created_at := created_at m |}.

(** [db.query(MLModel).filter(model_type == t, is_active == True)
      .update({is_active: False})] *)
Definition deactivate_type (t : string) (rows : list MLModel) : list MLModel :=
  map (fun m => if String.eqb (model_type m) t && is_active m
                then set_active false m else m) rows.

(** The key that the database gives to a new row: one that is not in use. *)
Definition next_id (rows : list MLModel) : Z :=
  (1 + foldr Z.max 0 (map id rows))%Z.

Definition model_file (model_name : string) : string :=
  "models/" +:+ model_name +:+ ".joblib".

(** [metrics.get(name, 0.0)] *)
Definition metric (metrics : gmap string Q) (name : string) : Q :=
  default 0%Q (metrics !! name).

(** [MLService.save_model], lines 146-173.  The file is written first; the
    deactivation and the insertion are committed together, and the unique
    index on [model_name] makes the commit fail for a name in use. *)
Definition save_model (name type : string) (metrics : gmap string Q)
  (hyper : list (string * HyperValue)) (run_id : string) (now : Z) (db : Store)
  : result Z * Store :=
  let files' := {[ model_file name ]} ∪ files db in
  let rows := deactivate_type type (ml_models db) in
  let db_model :=
    {| id := next_id (ml_models db); model_name := name; model_version := "1.0";
       model_type := type;
       accuracy := metric metrics "accuracy";
       precision := metric metrics "precision";
       recall := metric metrics "recall";
       f1_score := metric metrics "f1_score";
       auc_score := metric metrics "auc_score";
       is_active := true; mlflow_run_id := run_id;
       hyperparameters := hyper; created_at := now |} in
  if existsb (fun m => String.eqb (model_name m) name) (ml_models db)
  then (Err IntegrityError, {| ml_models := ml_models db; files := files' |})
  else (Ok (id db_model), {| ml_models := rows ++ [db_model]; files := files' |}).

(** [activate_model], [models.py] lines 128-152. *)
Definition activate_model (model_id : Z) (db : Store) : result string * Store :=
  match List.find (fun m => Z.eqb (id m) model_id) (ml_models db) with
  | None => (Err (HTTPException 404 "Model not found"), db)
  | Some model =>
      let rows := deactivate_type (model_type model) (ml_models db) in
      let rows := map (fun m => if Z.eqb (id m) model_id
                                then set_active true m else m) rows in
      (Ok ("Model " +:+ model_name model +:+ " activated successfully"),
       {| ml_models := rows; files := files db |})
  end.

(** The names that [scripts/init_database.py] binds (lines 3-11, and
    [RespiratoryMortality] imported inside the function at line 33):
    [MLModel] is not among them. *)
Definition init_database_names : list string :=
  ["asyncio"; "pd"; "Session"; "engine"; "Base"; "SessionLocal"; "DataProcessor";
   "settings"; "logger"; "sys"; "os"; "RespiratoryMortality"; "init_database"].

(** [scripts/init_database.py], lines 52-75: the placeholder row.  The
    handler rolls the session back and raises again. *)
Definition add_default_model (now : Z) (db : Store) : result unit * Store :=
  match global_name init_database_names "MLModel" with
  | Err e => (Err e, db)
  | Ok _ =>
      let default_model :=
        {| id := next_id (ml_models db); model_name := "default_random_forest";
           model_version := "1.0"; model_type := "random_forest";
           accuracy := 0; precision := 0; recall := 0; f1_score := 0; auc_score := 0;
           is_active := false; mlflow_run_id := "";
           hyperparameters := [("n_estimators", HInt 100); ("random_state", HInt 42)];
           created_at := now |} in
      if existsb (fun m => String.eqb (model_name m) "default_random_forest")
                 (ml_models db)
      then (Err IntegrityError, db)
      else (Ok (), {| ml_models := ml_models db ++ [default_model];
                      files := files db |})
  end.

Definition seconds_per_day : Z := 86400%Z.

(** The rows selected by both cleanups: inactive and created before the
    cutoff. *)
Definition old_inactive (cutoff : Z) (m : MLModel) : bool :=
  Z.ltb (created_at m) cutoff && negb (is_active m).

(** [db.delete(model)] for each model of a list, and the removal of their
    files. *)
Definition delete_models (doomed : list MLModel) (db : Store) : Store :=
  {| ml_models :=
       List.filter (fun m => negb (existsb (fun d => Z.eqb (id d) (id m)) doomed))
                   (ml_models db);
     files := files db ∖ list_to_set (map (fun d => model_file (model_name d)) doomed) |}.

(** The dictionary [model_types] of lines 152-156, in insertion order. *)
Fixpoint append_to (groups : list (string * list MLModel)) (m : MLModel)
  : list (string * list MLModel) :=
  match groups with
  | [] => [(model_type m, [m])]
  | (t, ms) :: groups' =>
      if String.eqb t (model_type m) then (t, ms ++ [m]) :: groups'
      else (t, ms) :: append_to groups' m
  end.

Definition group_by_type (models : list MLModel) : list (string * list MLModel) :=
  foldl append_to [] models.

(** [models.sort(key=lambda m: m.f1_score, reverse=True)]: descending and
    stable, records with equal scores keep their order. *)
Fixpoint insert_by_f1 (m : MLModel) (sorted : list MLModel) : list MLModel :=
  match sorted with
  | [] => [m]
  | m' :: sorted' =>
      if Qle_bool (f1_score m') (f1_score m) then m :: sorted
      else m' :: insert_by_f1 m sorted'
  end.

Definition sort_by_f1 (models : list MLModel) : list MLModel :=
  foldr insert_by_f1 [] models.

(** The slice [models[k:]]; a negative [k] counts from the end. *)
Definition slice_from {A} (k : Z) (l : list A) : list A :=
  if Z.leb 0 k then drop (Z.to_nat k) l
  else drop (Z.to_nat (Z.max 0 (Z.of_nat (length l) + k)%Z)) l.

(** [ModelManager.cleanup_old_models], [model_management.py] lines 137-183. *)
Definition models_to_delete (retention_days keep_best now : Z)
  (rows : list MLModel) : list MLModel :=
  let cutoff_date := (now - retention_days * seconds_per_day)%Z in
  let old_models := List.filter (old_inactive cutoff_date) rows in
  concat (map (fun g => slice_from keep_best (sort_by_f1 g.2))
              (group_by_type old_models)).

Definition manager_cleanup_old_models (retention_days keep_best now : Z)
  (db : Store) : Store :=
  delete_models (models_to_delete retention_days keep_best now (ml_models db)) db.

(** The names that [app/tasks/training_tasks.py] binds (lines 1-11 and its
    three tasks; [timedelta] and [os] are imported inside [cleanup_old_models]):
    [MLModel] is not among them. *)
Definition training_tasks_names : list string :=
  ["current_task"; "pd"; "Session"; "celery_app"; "SessionLocal";
   "RespiratoryMortality"; "MLService"; "DataProcessor"; "Dict"; "Any"; "Optional";
   "logger"; "traceback"; "datetime"; "train_model_task";
   "hyperparameter_optimization_task"; "cleanup_old_models"; "timedelta"; "os"].

(** The periodic task [cleanup_old_models], [training_tasks.py] lines
    195-232.  The query at line 206 names [MLModel]; the handler logs the
    exception and raises it again, nothing is committed. *)
Definition task_cleanup_old_models (now : Z) (db : Store) : result nat * Store :=
  let cutoff_date := (now - 30 * seconds_per_day)%Z in
  match global_name training_tasks_names "MLModel" with
  | Err e => (Err e, db)
  | Ok _ =>
      let old_models := List.filter (old_inactive cutoff_date) (ml_models db) in
      (Ok (length old_models), delete_models old_models db)
  end.

(** The operations that write to [ml_models]. *)
Inductive step : Store -> Store -> Prop :=
| step_save_model name type metrics hyper run_id now db :
    step db (save_model name type metrics hyper run_id now db).2
| step_activate_model model_id db :
    step db (activate_model model_id db).2
| step_add_default_model now db :
    step db (add_default_model now db).2
| step_manager_cleanup retention_days keep_best now db :
    step db (manager_cleanup_old_models retention_days keep_best now db)
| step_task_cleanup now db :
    step db (task_cleanup_old_models now db).2.

(** The stores that the system can be in, starting from an empty one. *)
Inductive reachable : Store -> Prop :=
| reachable_empty : reachable empty_store
| reachable_step db db' : reachable db -> step db db' -> reachable db'.

(** The active models of a type. *)
Definition activated (t : string) (m : MLModel) : bool :=
  String.eqb (model_type m) t && is_active m.

Definition active_models (t : string) (db : Store) : list MLModel :=
  List.filter (activated t) (ml_models db).

(** The models of a type. *)
Definition of_type (t : string) (m : MLModel) : bool := String.eqb (model_type m) t.

(** The ranking of the cleanup: [a] is at least as good as [b]. *)
Definition f1_ge (a b : MLModel) : Prop := (f1_score b <= f1_score a)%Q.

(** The primary key of [ml_models]. *)
Definition primary_key (db : Store) : Prop := NoDup (map id (ml_models db)).

(** The invariant of the registry: a primary key, and at most one active
    model per type. *)
Definition registry_invariant (db : Store) : Prop :=
  primary_key db /\ forall t, length (active_models t db) <= 1.

(** *** Test data

    Two saved models of one type and one of another, then a re-activation
    of the first. *)
Definition store_after_saves : Store :=
  let db := (save_model "rf_a" "random_forest" {[ "f1_score" := 4 # 5 ]} [] "run1" 100
               empty_store).2 in
  let db := (save_model "lr_a" "logistic_regression" ∅ [] "run2" 200 db).2 in
  let db := (save_model "rf_b" "random_forest" {[ "f1_score" := 9 # 10 ]} [] "run3" 300
               db).2 in
  (activate_model 1 db).2.

(** Two old inactive models of one type with the same score, the older one
    stored first, and the active model of that type. *)
Definition registry_row (i : Z) (name : string) (f1 : Q) (active : bool) (created : Z)
  : MLModel :=
  {| id := i; model_name := name; model_version := "1.0";
     model_type := "random_forest"; accuracy := f1; precision := f1; recall := f1;
     f1_score := f1; auc_score := f1; is_active := active; mlflow_run_id := "";
     hyperparameters := []; created_at := created |}.

Definition older_model : MLModel := registry_row 1 "rf_2024_01" (4 # 5) false 0.
Definition newer_model : MLModel := registry_row 2 "rf_2024_02" (4 # 5) false 1000.
Definition serving_model : MLModel := registry_row 3 "rf_2024_03" (7 # 10) true 2000.

Definition tie_store : Store :=
  {| ml_models := [older_model; newer_model; serving_model];
     files := {[ model_file "rf_2024_01"; model_file "rf_2024_02";
                 model_file "rf_2024_03" ]} |}.

(** One hundred days after the first model was created. *)
Definition tie_now : Z := 100 * seconds_per_day.

End Registry.

(** ** [app/services/ml_service.py] *)

Module Training.
Import Registry.

Inductive ModelClass : Type :=
| RandomForestClassifier
| LogisticRegression.

(** [self.models] *)
Definition models (model_type : string) : option ModelClass :=
  if String.eqb model_type "random_forest" then Some RandomForestClassifier
  else if String.eqb model_type "logistic_regression" then Some LogisticRegression
  else None.

(** What scikit-learn provides: estimators that are fitted and asked for
    predictions, the metric functions, and the permutation drawn by
    [train_test_split] with [random_state=42] for a number of rows.
    [model_predict_proba] is [None] for an estimator without that method. *)
Class Estimators : Type := {
  Model : Type;
  model_fit : ModelClass -> list (string * HyperValue) ->
        list (string * Column) -> list Q -> result Model;
  model_predict : Model -> list (string * Column) -> list Q;
  model_predict_proba : Model -> option (list (string * Column) -> list Q);
  accuracy_score : list Q -> list Q -> Q;
  precision_score_weighted : list Q -> list Q -> Q;
  recall_score_weighted : list Q -> list Q -> Q;
  f1_score_weighted : list Q -> list Q -> Q;
  roc_auc_score : list Q -> list Q -> result Q;
  permutation : nat -> list nat
}.

(** Calls to the experiment tracker and to the estimators, in the order in
    which [train_model] makes them. *)
Inductive Event : Type :=
| SetExperiment (experiment_name : string)
| TrainTestSplit (n_samples : nat)
| StartRun
| Fit (model_class : ModelClass) (n_train : nat)
| Predict (n_val : nat)
| LogParams
| LogMetrics
| LogModel.

Definition default_params (model_type : string) : list (string * HyperValue) :=
  if String.eqb model_type "random_forest" then
    [("n_estimators", HInt 100); ("max_depth", HInt 10);
     ("min_samples_split", HInt 5); ("random_state", HInt 42)]
  else if String.eqb model_type "logistic_regression" then
    [("random_state", HInt 42); ("max_iter", HInt 1000)]
  else [].

Definition n_rows (X : list (string * Column)) : nat :=
  match X with
  | [] => 0
  | (_, c) :: _ => col_length c
  end.

(** [series.iloc[indices]] and [frame.iloc[indices]]; the indices of a split
    are positions of the frame. *)
Definition take_rows {A} (indices : list nat) (xs : list A) : list A :=
  omap (fun i => xs !! i) indices.

Definition iloc (indices : list nat) (X : list (string * Column))
  : list (string * Column) :=
  map (fun nc => (nc.1, match nc.2 with
                        | ColStr xs => ColStr (take_rows indices xs)
                        | ColNum xs => ColNum (take_rows indices xs)
                        end)) X.

(** The size of the test part: [ceil(0.2 * n)]. *)
Definition n_test (n_samples : nat) : nat := (n_samples + 4) / 5.

Section WithEstimators.
Context `{Estimators}.

Definition test_indices (n_samples : nat) : list nat :=
  take (n_test n_samples) (permutation n_samples).

Definition train_indices (n_samples : nat) : list nat :=
  take (n_samples - n_test n_samples) (drop (n_test n_samples) (permutation n_samples)).

(** [train_test_split(X, y, test_size=0.2, random_state=42)]: the result is
    [(X_train, X_val, y_train, y_val)]. *)
Definition train_test_split (X : list (string * Column)) (y : list Q)
  : result (list (string * Column) * list (string * Column) * list Q * list Q) :=
  let n := n_rows X in
  if negb (Nat.eqb (length y) n) then
    Err (ValueError "Found input variables with inconsistent numbers of samples")
  else if Nat.eqb (n - n_test n) 0 then
    Err (ValueError "the resulting train set will be empty")
  else
    Ok (iloc (train_indices n) X, iloc (test_indices n) X,
        take_rows (train_indices n) y, take_rows (test_indices n) y).

(** [MLService.train_model], lines 28-84.  The tracker is taken to be
    available; [run_id] is the identifier it gives to the run. *)
Definition train_model (X_train : list (string * Column)) (y_train : list Q)
  (model_type : string) (hyperparameters : option (list (string * HyperValue)))
  (experiment_name : string) (run_id : string)
  : result (Model * gmap string Q * string) * list Event :=
  let events := [SetExperiment experiment_name] in
  let hyperparameters :=
    match hyperparameters with
    | None => default_params model_type
    | Some h => h
    end in
  let events := events ++ [TrainTestSplit (n_rows X_train)] in
  match train_test_split X_train y_train with
  | Err e => (Err e, events)
  | Ok (X_train_split, X_val, y_train_split, y_val) =>
      let events := events ++ [StartRun] in
      match models model_type with
      | None => (Err (KeyError model_type), events)
      | Some model_class =>
          let events := events ++ [Fit model_class (length y_train_split)] in
          match model_fit model_class hyperparameters X_train_split y_train_split with
          | Err e => (Err e, events)
          | Ok model =>
              let events := events ++ [Predict (length y_val)] in
              let y_pred := model_predict model X_val in
              let y_pred_proba :=
                match model_predict_proba model with
                | Some proba => Some (proba X_val)
                | None => None
                end in
              match
                match y_pred_proba with
                | Some p => roc_auc_score y_val p
                | None => Ok 0%Q
                end
              with
              | Err e => (Err e, events)
              | Ok auc =>
                  let metrics : gmap string Q :=
                    <["accuracy" := accuracy_score y_val y_pred]>
                    (<["precision" := precision_score_weighted y_val y_pred]>
                    (<["recall" := recall_score_weighted y_val y_pred]>
                    (<["f1_score" := f1_score_weighted y_val y_pred]>
                    (<["auc_score" := auc]> ∅)))) in
                  (Ok (model, metrics, run_id),
                   events ++ [LogParams; LogMetrics; LogModel])
              end
          end
      end
  end.

(** The object state of [MLService]. *)
Record MLService : Type := {
  active_model : option Model;
  active_model_name : option string
}.

(** [MLService()] *)
Definition new_service : MLService :=
  {| active_model := None; active_model_name := None |}.

(** [MLService.predict], lines 201-213: the predictions, with the
    probabilities when they are asked for and the model has them. *)
Definition predict (features : list (string * Column)) (return_probabilities : bool)
  (self : MLService) : result (list Q * option (list Q)) * MLService :=
  match active_model self with
  | None => (Err (ValueError "No active model loaded. Please load a model first."), self)
  | Some model =>
      let predictions := model_predict model features in
      match return_probabilities, model_predict_proba model with
      | true, Some proba => (Ok (predictions, Some (proba features)), self)
      | _, _ => (Ok (predictions, None), self)
      end
  end.

End WithEstimators.

(** An instance for running the model on concrete data: the fitted model is
    the majority label of the training rows, the permutation reverses the
    rows, and the scores are exact ratios. *)
Definition count_equal (a b : list Q) : nat :=
  length (List.filter (fun p => Qeq_bool p.1 p.2) (zip a b)).

Definition ratio (a b : nat) : Q :=
  inject_Z (Z.of_nat a) / inject_Z (Z.of_nat b).

Definition majority (y : list Q) : Q :=
  if Nat.leb (length y) (2 * length (List.filter (Qeq_bool 1) y)) then 1%Q else 0%Q.

#[export] Instance majority_estimators : Estimators := {|
  Model := Q;
  model_fit := fun _ _ _ y => Ok (majority y);
  model_predict := fun m X => replicate (n_rows X) m;
  model_predict_proba := fun m => Some (fun X => replicate (n_rows X) m);
  accuracy_score := fun a b => ratio (count_equal a b) (length a);
  precision_score_weighted := fun a b => ratio (count_equal a b) (length a);
  recall_score_weighted := fun a b => ratio (count_equal a b) (length a);
  f1_score_weighted := fun a b => ratio (count_equal a b) (length a);
  roc_auc_score := fun a b => Ok (1 # 2);
  permutation := fun n => rev (seq 0 n)
|}.

(** A run of [train_model] on the example matrix with that instance. *)
Definition example_training : result (Q * gmap string Q * string) * list Event :=
  Eval vm_compute in
    train_model example_X example_y "random_forest" None
      "respiratory_mortality_prediction" "run-1".

Definition example_model : Q :=
  Eval vm_compute in
    match example_training.1 with Ok r => r.1.1 | Err _ => 0%Q end.

Definition example_metrics : gmap string Q :=
  Eval vm_compute in
    match example_training.1 with Ok r => r.1.2 | Err _ => ∅ end.

End Training.

(** ** Job submission: [models.py] and [training_tasks.py] *)

Module Jobs.

(** A row of the table [respiratory_mortality]; [deaths] and [population]
    may be [NULL]. *)
Record RespiratoryMortality : Type := {
  county : string;
  ten_year_age_groups : string;
  gender : string;
  year : Z;
  icd_10_113_cause_list : string;
  deaths : option Z;
  population : option Z;
  state : string
}.

Record TrainingRequest : Type := {
  model_type : string;
  hyperparameters : option (list (string * Registry.HyperValue));
  experiment_name : string
}.

(** The application state seen by the endpoint: the data table and the
    queue of training jobs. *)
Record App : Type := {
  respiratory_mortality : list RespiratoryMortality;
  task_queue : list TrainingRequest
}.

(** Accesses to the data table. *)
Inductive Access : Type :=
| CountRows
| LoadRows.

(** The names that [app/api/v1/endpoints/models.py] binds (lines 1-17 and
    its endpoints): neither [func] nor [RespiratoryMortality] is among them. *)
Definition models_names : list string :=
  ["APIRouter"; "Depends"; "HTTPException"; "BackgroundTasks"; "Session"; "List";
   "Dict"; "Any"; "Optional"; "pd"; "datetime"; "get_db"; "MLModel"; "PredictionLog";
   "ModelInfo"; "TrainingRequest"; "TrainingResponse"; "ModelMetrics"; "MLService";
   "DataProcessor"; "train_model_task"; "get_logger"; "logger"; "router";
   "list_models"; "get_model"; "start_model_training"; "activate_model";
   "get_feature_importance"; "get_prediction_logs"].

(** [start_model_training], [models.py] lines 82-126: the response is the
    status text ["started"].  The count of line 97 evaluates [func] and then
    [RespiratoryMortality] before it reaches the table. *)
Definition start_model_training (request : TrainingRequest) (app : App)
  : result string * App * list Access :=
  if negb (existsb (String.eqb (model_type request))
                   ["random_forest"; "logistic_regression"])
  then (Err (HTTPException 400
          "Invalid model type. Must be 'random_forest' or 'logistic_regression'"),
        app, [])
  else
    match
      global_name models_names "func" ≫=
        (fun _ => global_name models_names "RespiratoryMortality")
    with
    | Err e => (Err e, app, [])
    | Ok _ =>
        let data_count := length (respiratory_mortality app) in
        if Nat.ltb data_count 1000
        then (Err (HTTPException 400
                "Insufficient data for training. Minimum 1000 records required."),
              app, [CountRows])
        else (Ok "started",
              {| respiratory_mortality := respiratory_mortality app;
                 task_queue := task_queue app ++ [request] |},
              [CountRows])
    end.

(** The rows that the training query selects: [deaths] and [population] not
    [NULL]. *)
Definition qualifying (row : RespiratoryMortality) : bool :=
  match deaths row, population row with
  | Some _, Some _ => true
  | _, _ => false
  end.

(** The states that a task reports with [update_state]. *)
Inductive TaskState : Type :=
| PROGRESS (status : string) (progress : Z)
| FAILURE.

(** [train_model_task], [training_tasks.py] lines 13-114.  The task loads
    the qualifying rows and checks their number; [pipeline] stands for the
    stages that follow (lines 43-99: feature engineering, data preparation,
    training, saving), with the states they report.  Any exception is
    reported as [FAILURE] and raised again. *)
Definition train_model_task {R} (request : TrainingRequest)
  (pipeline : TrainingRequest -> list RespiratoryMortality -> result R * list TaskState)
  (app : App) : result R * list TaskState * list Access :=
  let states := [PROGRESS "Loading data" 10] in
  let df := List.filter qualifying (respiratory_mortality app) in
  if Nat.ltb (length df) 1000
  then (Err (ValueError "Insufficient data for training"), states ++ [FAILURE], [LoadRows])
  else
    let states := states ++ [PROGRESS "Processing data" 30] in
    match pipeline request df with
    | (Ok r, reported) => (Ok r, states ++ reported, [LoadRows])
    | (Err e, reported) => (Err e, states ++ reported ++ [FAILURE], [LoadRows])
    end.

Definition complete_row : RespiratoryMortality :=
  {| county := "Test County"; ten_year_age_groups := "65-74 years";
     gender := "Male"; year := 2020;
     icd_10_113_cause_list := "Chronic lower respiratory diseases";
     deaths := Some 25%Z; population := Some 10000%Z; state := "California" |}.

Definition row_without_deaths : RespiratoryMortality :=
  {| county := "Test County"; ten_year_age_groups := "65-74 years";
     gender := "Male"; year := 2020;
     icd_10_113_cause_list := "Chronic lower respiratory diseases";
     deaths := None; population := Some 10000%Z; state := "California" |}.

(** A table of 1000 rows of which 999 qualify for training. *)
Definition app_with_a_null : App :=
  {| respiratory_mortality := replicate 999 complete_row ++ [row_without_deaths];
     task_queue := [] |}.

(** The empty data table of the API tests. *)
Definition empty_app : App := {| respiratory_mortality := []; task_queue := [] |}.

Definition forest_request : TrainingRequest :=
  {| model_type := "random_forest"; hyperparameters := None;
     experiment_name := "respiratory_mortality_prediction" |}.

Definition unsupported_request : TrainingRequest :=
  {| model_type := "unsupported_model"; hyperparameters := None;
     experiment_name := "respiratory_mortality_prediction" |}.

End Jobs.

(** ** Further test data of the feature pipeline

    A frame with a single record, and the example frame without its [year]
    column. *)
Definition single_record_frame : DataFrame :=
  <["county" := ColStr ["Test County"] ]>
  (<["ten_year_age_groups" := ColStr ["65-74 years"] ]>
  (<["gender" := ColStr ["Male"] ]>
  (<["year" := ColNum [2020]%Q ]>
  (<["icd_10_113_cause_list" := ColStr ["Chronic lower respiratory diseases"] ]>
  (<["deaths" := ColNum [25]%Q ]>
  (<["population" := ColNum [10000]%Q ]>
  (<["state" := ColStr ["California"] ]> ∅))))))).

Definition frame_without_year : DataFrame := delete "year" example_frame.

(** The columns that [engineer_features] writes. *)
Definition engineered_columns : list string :=
  ["mortality_rate"; "high_mortality"; "is_male"; "mortality_category";
   "population_density"; "is_west_coast"; "is_east_coast"].


(** * Properties *)

(** ** Feature engineering *)

Lemma bind_Ok {A B} (r : result A) (k : A -> result B) (b : B) :
  r ≫= k = Ok b -> exists a, r = Ok a /\ k a = Ok b.
Proof. destruct r as [a|e]; [eauto | discriminate]. Qed.

Lemma getitem_Ok (df : DataFrame) name c :
  getitem df name = Ok c -> df !! name = Some c.
Proof. unfold getitem. destruct (df !! name); congruence. Qed.

Lemma to_numeric_Ok c xs : to_numeric c = Ok xs -> c = ColNum xs.
Proof. destruct c; simpl; congruence. Qed.

Lemma lookup_zip_with_Some_both {A B C} (f : A -> B -> C) (l : list A) (k : list B) i a b :
  l !! i = Some a -> k !! i = Some b -> zip_with f l k !! i = Some (f a b).
Proof. intros Ha Hb. rewrite lookup_zip_with, Ha. simpl. rewrite Hb. done. Qed.

(** In binary64 the two example rows give exactly 250.0 and 300.0. *)
Example mortality_rate_binary64_examples :
  mortality_rate_binary64 25 10000 = 250%float /\
  mortality_rate_binary64 150 50000 = 300%float.
Proof. split; reflexivity. Qed.

Lemma qcut_Ok_inv xs q lbls out :
  qcut xs q lbls = Ok out ->
  exists bins, qcut_bins xs q = Some bins /\ all_distinct bins = true /\
               out = map (fun x => nth (bucket bins x) lbls "nan"%string) xs.
Proof.
  unfold qcut. destruct (qcut_bins xs q) as [bins|]; [|discriminate].
  destruct (all_distinct bins) eqn:E; [|discriminate].
  intros [= <-]. eauto.
Qed.

Lemma engineer_features_frame_inv (df out : DataFrame) :
  engineer_features_frame df = Ok out ->
  exists deaths population category density,
    df !! "deaths" = Some (ColNum deaths) /\
    df !! "population" = Some (ColNum population) /\
    let rate := zip_with mortality_rate deaths population in
    qcut rate 5 ["Very Low"; "Low"; "Medium"; "High"; "Very High"] = Ok category /\
    qcut population 3 ["Low Density"; "Medium Density"; "High Density"] = Ok density /\
    out !! "mortality_rate" = Some (ColNum rate) /\
    out !! "high_mortality" =
      Some (ColNum (map astype_int (gt rate (quantile rate (3 # 4))))) /\
    out !! "mortality_category" = Some (ColStr category) /\
    out !! "population_density" = Some (ColStr density).
Proof.
  unfold engineer_features_frame. intros H.
  apply bind_Ok in H as (deaths & Hd & H).
  apply bind_Ok in Hd as (cd & Hd & Hd'). apply getitem_Ok in Hd.
  apply to_numeric_Ok in Hd'. subst cd.
  apply bind_Ok in H as (population & Hp & H).
  apply bind_Ok in Hp as (cp & Hp & Hp'). apply getitem_Ok in Hp.
  apply to_numeric_Ok in Hp'. subst cp.
  apply bind_Ok in H as (gender & _ & H).
  apply bind_Ok in H as (category & Hc & H).
  apply bind_Ok in H as (population' & Hp' & H).
  apply bind_Ok in Hp' as (cp & Hp' & Hp''). apply getitem_Ok in Hp'.
  apply to_numeric_Ok in Hp''. subst cp.
  rewrite !lookup_insert_ne in Hp' by done.
  assert (population' = population) as -> by congruence.
  apply bind_Ok in H as (density & Hq & H).
  apply bind_Ok in H as (st1 & _ & H).
  apply bind_Ok in H as (st2 & _ & H).
  injection H as <-.
  exists deaths, population, category, density.
  repeat split; try done; by simplify_map_eq.
Qed.

(** C9.  Whenever [engineer_features] returns, the [mortality_rate] cell of
    every input record is [deaths / population * 100000] of that record; so a
    record with 25 deaths in a population of 10000 gets the rate 250, and one
    with 150 deaths in a population of 50000 gets 300. *)
Theorem C9_mortality_rate (df out : DataFrame) (self : DataProcessor)
  (Hrun : (engineer_features df self).1 = Ok out) :
  exists deaths population rate,
    df !! "deaths" = Some (ColNum deaths) /\
    df !! "population" = Some (ColNum population) /\
    out !! "mortality_rate" = Some (ColNum rate) /\
    (forall (i : nat) d p,
        deaths !! i = Some d -> population !! i = Some p ->
        rate !! i = Some (d / p * 100000)%Q) /\
    (forall i : nat,
        deaths !! i = Some 25%Q -> population !! i = Some 10000%Q ->
        exists r, rate !! i = Some r /\ (r == 250)%Q) /\
    (forall i : nat,
        deaths !! i = Some 150%Q -> population !! i = Some 50000%Q ->
        exists r, rate !! i = Some r /\ (r == 300)%Q).
Proof.
  simpl in Hrun.
  destruct (engineer_features_frame_inv _ _ Hrun)
    as (deaths & population & _ & _ & Hd & Hp & _ & _ & Hr & _).
  exists deaths, population, (zip_with (fun d p => (d / p * 100000)%Q) deaths population).
  split; [done|]. split; [done|]. split; [done|].
  assert (Hrow : forall (i : nat) d p,
             deaths !! i = Some d -> population !! i = Some p ->
             zip_with (fun d p => (d / p * 100000)%Q) deaths population !! i
             = Some (d / p * 100000)%Q).
  { intros i d p Hi Hj.
    by apply (lookup_zip_with_Some_both (fun d p => (d / p * 100000)%Q)). }
  split; [exact Hrow|]. split.
  - intros i Hi Hj. eexists. split; [by apply Hrow|]. reflexivity.
  - intros i Hi Hj. eexists. split; [by apply Hrow|]. reflexivity.
Qed.

Lemma C9_mortality_rate_witness :
  (engineer_features example_frame init).1 = Ok example_engineered /\
  exists deaths population rate,
    example_frame !! "deaths" = Some (ColNum deaths) /\
    example_frame !! "population" = Some (ColNum population) /\
    example_engineered !! "mortality_rate" = Some (ColNum rate) /\
    (forall (i : nat) d p,
        deaths !! i = Some d -> population !! i = Some p ->
        rate !! i = Some (d / p * 100000)%Q) /\
    (forall i : nat,
        deaths !! i = Some 25%Q -> population !! i = Some 10000%Q ->
        exists r, rate !! i = Some r /\ (r == 250)%Q) /\
    (forall i : nat,
        deaths !! i = Some 150%Q -> population !! i = Some 50000%Q ->
        exists r, rate !! i = Some r /\ (r == 300)%Q).
Proof.
  split; [vm_compute; reflexivity|].
  apply (C9_mortality_rate example_frame example_engineered init).
  vm_compute; reflexivity.
Defined.

(** C2 (as the code has it).  [engineer_features] neither reads nor writes
    the processor: its result is the same for every processor state.  The
    threshold of [high_mortality] is the 75th percentile of the rates of the
    frame passed to this very call, and the bucket edges of
    [mortality_category] and [population_density] are the 5- and 3-quantiles
    of the rates and populations of that same frame. *)
Theorem C2_statistics_of_the_passed_frame (df out : DataFrame) (self : DataProcessor)
  (Hrun : (engineer_features df self).1 = Ok out) :
  (engineer_features df self).2 = self /\
  (forall other : DataProcessor, (engineer_features df other).1 = Ok out) /\
  exists deaths population rate rate_edges population_edges,
    df !! "deaths" = Some (ColNum deaths) /\
    df !! "population" = Some (ColNum population) /\
    rate = zip_with (fun d p => (d / p * 100000)%Q) deaths population /\
    out !! "high_mortality" =
      Some (ColNum (map astype_int (gt rate (quantile rate (3 # 4))))) /\
    qcut_bins rate 5 = Some rate_edges /\
    out !! "mortality_category" =
      Some (ColStr (map (fun x => nth (bucket rate_edges x)
                           ["Very Low"; "Low"; "Medium"; "High"; "Very High"] "nan")
                        rate)) /\
    qcut_bins population 3 = Some population_edges /\
    out !! "population_density" =
      Some (ColStr (map (fun x => nth (bucket population_edges x)
                           ["Low Density"; "Medium Density"; "High Density"] "nan")
                        population)).
Proof.
  simpl in Hrun. split; [done|]. split; [done|].
  destruct (engineer_features_frame_inv _ _ Hrun)
    as (deaths & population & category & density & Hd & Hp & Hc & Hq & _ & Hh & Hmc & Hpd).
  apply qcut_Ok_inv in Hc as (rate_edges & Hre & _ & ->).
  apply qcut_Ok_inv in Hq as (population_edges & Hpe & _ & ->).
  exists deaths, population, (zip_with mortality_rate deaths population),
    rate_edges, population_edges.
  repeat split; done.
Qed.

Lemma C2_statistics_of_the_passed_frame_witness :
  (engineer_features later_frame example_fitted).1 = Ok later_engineered /\
  (engineer_features later_frame example_fitted).2 = example_fitted /\
  later_engineered !! "high_mortality" =
    Some (ColNum (map astype_int
            (gt [mortality_rate 25 10000; mortality_rate 1 2000]
                (quantile [mortality_rate 25 10000; mortality_rate 1 2000] (3 # 4))))).
Proof.
  assert (Hrun : (engineer_features later_frame example_fitted).1 = Ok later_engineered)
    by (vm_compute; reflexivity).
  split; [exact Hrun|].
  destruct (C2_statistics_of_the_passed_frame later_frame later_engineered
              example_fitted Hrun)
    as (Hself & _ & deaths & population & rate & re & pe & Hd & Hp & -> & Hh & _).
  split; [exact Hself|].
  assert (deaths = [25; 1]%Q) as -> by (vm_compute in Hd; congruence).
  assert (population = [10000; 2000]%Q) as -> by (vm_compute in Hp; congruence).
  exact Hh.
Defined.

(** C2 fails as stated.  The processor is fitted on the example frame; a
    later frame has the very same first record.  That record is below the
    threshold and in the lowest buckets at fit time, and above the threshold
    and in the highest buckets in the later call: the statistics were taken
    from the later frame, not from the fitted state. *)
Lemma C2_counterexample :
  (engineer_features example_frame init).1 = Ok example_engineered /\
  is_ok (prepare_model_data sqrt_exact example_engineered true init).1 = true /\
  (engineer_features later_frame example_fitted).1 = Ok later_engineered /\
  Forall (fun name => cell example_frame name 0 = cell later_frame name 0)
    ["county"; "ten_year_age_groups"; "gender"; "year";
     "icd_10_113_cause_list"; "deaths"; "population"; "state"] /\
  cell example_engineered "mortality_rate" 0 = cell later_engineered "mortality_rate" 0 /\
  cell example_engineered "high_mortality" 0 = Some (inr 0%Q) /\
  cell later_engineered "high_mortality" 0 = Some (inr 1%Q) /\
  cell example_engineered "mortality_category" 0 = Some (inl "Very Low") /\
  cell later_engineered "mortality_category" 0 = Some (inl "Very High") /\
  cell example_engineered "population_density" 0 = Some (inl "Low Density") /\
  cell later_engineered "population_density" 0 = Some (inl "High Density").
Proof.
  repeat split; try (vm_compute; reflexivity).
  repeat constructor.
Qed.

(** ** Label encoders *)

Lemma String_compare_refl (s : string) : String.compare s s = Eq.
Proof.
  induction s as [|a s IH]; [done|]. simpl.
  unfold Ascii.compare. by rewrite N.compare_refl.
Qed.

Lemma Qcompare_refl (x : Q) : Qcompare x x = Eq.
Proof. by apply Qeq_alt. Qed.

Section UniqueFacts.
Context {A : Type} (cmp : A -> A -> comparison).
Hypothesis cmp_refl : forall x, cmp x x = Eq.

Lemma seen_insert_unique_same x l : seen cmp (insert_unique cmp x l) x = true.
  Proof using cmp_refl.
    induction l as [|y l IH]; simpl.
    - by rewrite cmp_refl.
    - destruct (cmp x y) eqn:E; simpl.
      + by rewrite E.
      + by rewrite cmp_refl.
      + rewrite E. exact IH.
  Qed.

Lemma seen_insert_unique_mono x z l :
    seen cmp l z = true -> seen cmp (insert_unique cmp x l) z = true.
  Proof.
    induction l as [|y l IH]; simpl; [done|].
    intros H. destruct (cmp x y) eqn:E; simpl; [done| |].
    - rewrite H. by destruct (cmp z x).
    - apply orb_true_iff in H as [H|H]; [by rewrite H|].
      rewrite (IH H). by destruct (cmp z y).
  Qed.

Lemma seen_unique xs x : x ∈ xs -> seen cmp (unique cmp xs) x = true.
  Proof using cmp_refl.
    induction xs as [|y xs IH]; [by intros ?%elem_of_nil|].
    intros [->|Hin]%elem_of_cons; simpl.
    - apply seen_insert_unique_same.
    - apply seen_insert_unique_mono, IH, Hin.
  Qed.

Lemma encode_unique xs :
    encode cmp (unique cmp xs) xs = Ok (map (code cmp (unique cmp xs)) xs).
  Proof using cmp_refl.
    unfold encode.
    assert (forallb (seen cmp (unique cmp xs)) xs = true) as ->; [|done].
    apply forallb_forall. intros x Hx. apply seen_unique.
    by apply list_elem_of_In.
  Qed.

Lemma encode_unseen classes xs x :
    x ∈ xs -> seen cmp classes x = false ->
    encode cmp classes xs = Err unseen_labels_error.
  Proof.
    intros Hx Hs. unfold encode.
    destruct (forallb (seen cmp classes) xs) eqn:E; [|done].
    rewrite forallb_forall in E. rewrite E in Hs; [done|].
    by apply list_elem_of_In.
  Qed.
End UniqueFacts.

Lemma le_fit_transform_transform (c : Column) :
  le_transform (le_fit_transform c).1 c = Ok (le_fit_transform c).2.
Proof.
  destruct c as [xs|xs]; simpl.
  - apply encode_unique, String_compare_refl.
  - apply encode_unique, Qcompare_refl.
Qed.

Lemma le_transform_Err le c e : le_transform le c = Err e -> e = unseen_labels_error.
Proof.
  unfold unseen_labels_error.
  destruct le, c as [xs|xs]; simpl; unfold encode.
  - destruct (forallb _ _); congruence.
  - destruct xs; congruence.
  - destruct xs; congruence.
  - destruct (forallb _ _); congruence.
Qed.

Lemma le_transform_unseen le c :
  has_unseen_label le c -> le_transform le c = Err unseen_labels_error.
Proof.
  destruct le as [cs|cs], c as [xs|xs]; simpl.
  - intros (x & Hx & Hn). apply (encode_unseen _ _ _ x Hx).
    destruct (seen String.compare cs x) eqn:E; [|done]. exfalso. apply Hn.
    unfold seen in E. apply existsb_exists in E as (y & Hy & Hc).
    destruct (String.compare x y) eqn:Ec; [|done..].
    apply String.compare_eq_iff in Ec as ->. by apply list_elem_of_In.
  - by destruct xs.
  - by destruct xs.
  - intros (x & Hx & Hn). apply (encode_unseen _ _ _ x Hx).
    destruct (seen Qcompare cs x) eqn:E; [|done]. exfalso.
    unfold seen in E. apply existsb_exists in E as (y & Hy & Hc).
    destruct (Qcompare x y) eqn:Ec; [|done..].
    apply Qeq_alt in Ec. apply (Hn y); [by apply list_elem_of_In|done].
Qed.

(** ** The encoder loops of [prepare_model_data] *)

Lemma fit_encoders_loop_cons column columns acc :
  fit_encoders_loop (column :: columns) acc
  = fit_encoders_loop columns (fit_encoders_step acc column).
Proof. done. Qed.

Lemma fit_encoders_step_Some (df : DataFrame) encoders column col :
  df !! column = Some col ->
  fit_encoders_step (df, encoders) column
  = (<[column := ColNum (le_fit_transform col).2]> df,
     <[column := (le_fit_transform col).1]> encoders).
Proof.
  intros H. unfold fit_encoders_step. cbn [fst snd]. rewrite H.
  by destruct (le_fit_transform col).
Qed.

Lemma fit_encoders_step_None (df : DataFrame) encoders column :
  df !! column = None -> fit_encoders_step (df, encoders) column = (df, encoders).
Proof. intros H. unfold fit_encoders_step. cbn [fst snd]. by rewrite H. Qed.

Lemma fit_encoders_step_other acc column (c : string) :
  c <> column -> (fit_encoders_step acc column).2 !! c = acc.2 !! c.
Proof.
  intros Hne. unfold fit_encoders_step.
  destruct (acc.1 !! column) as [col|]; [|done].
  destruct (le_fit_transform col) as [le codes]. simpl.
  by rewrite lookup_insert_ne.
Qed.

Lemma fit_encoders_loop_other columns acc (c : string) :
  c ∉ columns -> (fit_encoders_loop columns acc).2 !! c = acc.2 !! c.
Proof.
  revert acc. induction columns as [|column columns IH]; intros acc Hc; [done|].
  apply not_elem_of_cons in Hc as [Hne Hc].
  rewrite fit_encoders_loop_cons, IH by done.
  by apply fit_encoders_step_other.
Qed.

(** Encoding a frame with the encoders that were just fitted on it gives the
    frame that the fitting loop produced. *)
Lemma transform_after_fit columns :
  NoDup columns -> forall (df : DataFrame) encoders,
  transform_encoders_loop (fit_encoders_loop columns (df, encoders)).2 columns df
  = Ok (fit_encoders_loop columns (df, encoders)).1.
Proof.
  induction 1 as [|column columns Hnotin Hnodup IH]; intros df encoders; [done|].
  rewrite fit_encoders_loop_cons. cbn [transform_encoders_loop].
  rewrite fit_encoders_loop_other by done.
  destruct (df !! column) as [col|] eqn:Hcol.
  - rewrite (fit_encoders_step_Some _ _ _ _ Hcol).
    cbn [snd]. rewrite lookup_insert_eq, le_fit_transform_transform. apply IH.
  - rewrite (fit_encoders_step_None _ _ _ Hcol).
    destruct (encoders !! column); apply IH.
Qed.

(** The transforming loop stops at the first column with an unseen label. *)
Lemma transform_encoders_loop_unseen encoders columns :
  forall (df : DataFrame) c col le,
  c ∈ columns -> df !! c = Some col -> encoders !! c = Some le ->
  has_unseen_label le col ->
  transform_encoders_loop encoders columns df = Err unseen_labels_error.
Proof.
  induction columns as [|column columns IH]; intros df c col le Hc Hcol Hle Hun.
  { by apply elem_of_nil in Hc. }
  simpl. destruct (decide (c = column)) as [->|Hne].
  - rewrite Hcol, Hle, (le_transform_unseen _ _ Hun). done.
  - apply elem_of_cons in Hc as [?|Hc]; [done|].
    destruct (df !! column) as [col'|] eqn:Hcol'; [|by eapply IH].
    destruct (encoders !! column) as [le'|] eqn:Hle'; [|by eapply IH].
    destruct (le_transform le' col') as [codes|e] eqn:Ht; simpl.
    + eapply IH; [done| |done..]. by rewrite lookup_insert_ne.
    + by rewrite (le_transform_Err _ _ _ Ht).
Qed.

(** A column without an encoder is left as it is. *)
Lemma transform_encoders_loop_skips encoders columns :
  forall (df out : DataFrame) (c : string),
  encoders !! c = None ->
  transform_encoders_loop encoders columns df = Ok out ->
  out !! c = df !! c.
Proof.
  induction columns as [|column columns IH]; intros df out c Hnone; simpl.
  { by intros [= <-]. }
  destruct (df !! column) as [col|] eqn:Hcol; [|by apply IH].
  destruct (encoders !! column) as [le|] eqn:Hle; [|by apply IH].
  destruct (le_transform le col) as [codes|e]; simpl; [|done].
  intros H. rewrite (IH _ _ _ Hnone H).
  apply lookup_insert_ne. congruence.
Qed.

Lemma transform_encoders_loop_empty columns (df : DataFrame) :
  transform_encoders_loop ∅ columns df = Ok df.
Proof.
  induction columns as [|column columns IH]; simpl; [done|].
  rewrite lookup_empty. by destruct (df !! column).
Qed.

Lemma NoDup_categorical_columns : NoDup categorical_columns.
Proof. apply NoDup_ListNoDup. repeat constructor; simpl; intuition discriminate. Qed.

(** ** Fit and transform *)

Lemma result_bind_Ok {A B} (a : A) (k : A -> result B) : Ok a ≫= k = k a.
Proof. done. Qed.

(** C6.  When [prepare_model_data(df, fit_encoders=True)] returns the matrix
    [X] (and the labels [y]), a following
    [prepare_model_data(df, fit_encoders=False)] on the same frame with the
    fitted processor returns exactly the same [X] (and [y]) and leaves the
    processor as it is. *)
Theorem C6_transform_reproduces_fit_transform (fsqrt : Q -> Q) (df : DataFrame)
  (self fitted : DataProcessor) (X : list (string * Column)) (y : list Q)
  (Hfit : prepare_model_data fsqrt df true self = (Ok (X, y), fitted)) :
  prepare_model_data fsqrt df false fitted = (Ok (X, y), fitted).
Proof.
  unfold prepare_model_data in Hfit.
  pose proof (transform_after_fit _ NoDup_categorical_columns df (label_encoders self)) as Hloop.
  destruct (fit_encoders_loop categorical_columns (df, label_encoders self))
    as [df_encoded encoders]. cbn [fst snd] in Hloop.
  destruct (select df_encoded feature_columns) as [X0|e] eqn:Hsel; [|by inversion Hfit].
  match type of Hfit with
  | context [match ?scaled with Ok _ => _ | Err _ => _ end] =>
      destruct scaled as [cols|e] eqn:Hcols; [|by inversion Hfit]
  end.
  apply bind_Ok in Hcols as (year & Hyear & Hcols).
  apply bind_Ok in Hcols as (population & Hpop & Hcols).
  destruct (labels df_encoded) as [y0|e] eqn:Hy; [|by inversion Hfit].
  injection Hfit as <- <- <-.
  unfold prepare_model_data. cbn [label_encoders scaler].
  rewrite Hloop, result_bind_Ok, Hsel, result_bind_Ok, Hyear, result_bind_Ok,
    Hpop, !result_bind_Ok, Hcols, result_bind_Ok.
  unfold fit_features at 1. rewrite length_map, Nat.eqb_refl. cbn [negb].
  by rewrite Hy.
Qed.

Lemma C6_transform_reproduces_fit_transform_witness :
  prepare_model_data sqrt_exact example_engineered true init
  = (Ok (example_X, example_y), example_fitted) /\
  prepare_model_data sqrt_exact example_engineered false example_fitted
  = (Ok (example_X, example_y), example_fitted).
Proof.
  split; [vm_compute; reflexivity|].
  apply (C6_transform_reproduces_fit_transform sqrt_exact example_engineered init).
  vm_compute; reflexivity.
Defined.

(** C3 (as the code has it).  When a categorical column of the input has an
    encoder in the processor and holds a label that the encoder has not
    seen, [prepare_model_data(df, fit_encoders=False)] raises the
    unseen-label [ValueError], returns nothing and leaves the processor as
    it is.  On a processor that was never fitted the call always raises. *)
Theorem C3_unseen_label_raises (fsqrt : Q -> Q) (df : DataFrame)
  (self : DataProcessor) (c : string) (col : Column) (le : LabelEncoder)
  (Hc : c ∈ categorical_columns)
  (Hcol : df !! c = Some col)
  (Hle : label_encoders self !! c = Some le)
  (Hunseen : has_unseen_label le col) :
  prepare_model_data fsqrt df false self = (Err unseen_labels_error, self) /\
  exists e, prepare_model_data fsqrt df false init = (Err e, init).
Proof.
  split.
  - unfold prepare_model_data.
    by rewrite (transform_encoders_loop_unseen _ _ _ _ _ _ Hc Hcol Hle Hunseen).
  - unfold prepare_model_data. cbn [label_encoders scaler init].
    rewrite transform_encoders_loop_empty, result_bind_Ok.
    destruct (select df feature_columns) as [X|e]; [|by eexists].
    rewrite result_bind_Ok.
    destruct (lookup_column X "year") as [year|e]; [|by eexists].
    rewrite result_bind_Ok.
    destruct (lookup_column X "population") as [population|e]; [|by eexists].
    by eexists.
Qed.

Lemma C3_unseen_label_raises_witness :
  prepare_model_data sqrt_exact later_frame false example_fitted
  = (Err unseen_labels_error, example_fitted) /\
  exists e, prepare_model_data sqrt_exact later_frame false init = (Err e, init).
Proof.
  apply (C3_unseen_label_raises sqrt_exact later_frame example_fitted "county"
           (ColStr ["Test County"; "Cook County"])
           (LEStr ["Los Angeles County"; "Test County"])).
  - vm_compute. constructor.
  - vm_compute; reflexivity.
  - vm_compute; reflexivity.
  - exists "Cook County". split; [repeat constructor|].
    intros H. repeat (apply elem_of_cons in H as [H|H]; [discriminate|]).
    by apply elem_of_nil in H.
Defined.

(** C3 fails as stated.  The processor is fitted on a frame that has no
    cause-of-death column, so it holds no encoder for it.  The example frame
    has that column, with labels that were never seen during fit; the
    transforming call skips the column and returns a matrix. *)
Lemma C3_counterexample :
  is_ok (prepare_model_data sqrt_exact frame_without_cause true init).1 = true /\
  label_encoders fitted_without_cause !! "icd_10_113_cause_list" = None /\
  "icd_10_113_cause_list" ∈ categorical_columns /\
  cell example_frame "icd_10_113_cause_list" 0
    = Some (inl "Chronic lower respiratory diseases") /\
  prepare_model_data sqrt_exact example_frame false fitted_without_cause
  = (Ok (example_X, example_y), fitted_without_cause).
Proof.
  repeat split; try (vm_compute; reflexivity).
  vm_compute. repeat constructor.
Qed.

(** ** The model registry *)

Module RegistryFacts.
Import Registry.

Lemma id_le_max (rows : list MLModel) m :
  In m rows -> (id m <= foldr Z.max 0 (map id rows))%Z.
Proof.
  induction rows as [|r rows IH]; simpl; [done|].
  intros [->|H]; [lia|]. specialize (IH H). lia.
Qed.

Lemma next_id_fresh (rows : list MLModel) : ~ In (next_id rows) (map id rows).
Proof.
  intros (m & Hid & Hin)%in_map_iff. apply id_le_max in Hin.
  unfold next_id in Hid. lia.
Qed.

Lemma deactivate_type_ids t rows : map id (deactivate_type t rows) = map id rows.
Proof.
  unfold deactivate_type. rewrite map_map. apply map_ext.
  intros m. by destruct (_ && _).
Qed.

Lemma activated_set_active t b m :
  activated t (set_active b m) = String.eqb (model_type m) t && b.
Proof. done. Qed.

Lemma deactivate_type_cons t r rows :
  deactivate_type t (r :: rows)
  = (if activated t r then set_active false r else r) :: deactivate_type t rows.
Proof. done. Qed.

Lemma filter_cons {A} (f : A -> bool) x l :
  List.filter f (x :: l) = if f x then x :: List.filter f l else List.filter f l.
Proof. done. Qed.

Lemma deactivate_type_same t rows :
  List.filter (activated t) (deactivate_type t rows) = [].
Proof.
  induction rows as [|r rows IH]; [done|].
  rewrite deactivate_type_cons, filter_cons, IH.
  destruct (activated t r) eqn:E.
  - by rewrite activated_set_active, andb_false_r.
  - by rewrite E.
Qed.

Lemma activated_other t t' m : t' <> t -> activated t m = true -> activated t' m = false.
Proof.
  intros Hne [Ht%String.eqb_eq _]%andb_true_iff. unfold activated.
  assert (String.eqb (model_type m) t' = false) as ->; [|done].
  apply String.eqb_neq. congruence.
Qed.

Lemma deactivate_type_other t t' rows :
  t' <> t ->
  List.filter (activated t') (deactivate_type t rows) = List.filter (activated t') rows.
Proof.
  intros Hne. induction rows as [|r rows IH]; [done|].
  rewrite deactivate_type_cons, !filter_cons, IH.
  destruct (activated t r) eqn:E; [|done].
  rewrite (activated_other _ _ _ Hne E).
  rewrite activated_set_active. by rewrite andb_false_r.
Qed.

Lemma filter_sublist {A} (f : A -> bool) (l : list A) : sublist (List.filter f l) l.
Proof.
  induction l as [|x l IH]; [done|]. rewrite filter_cons.
  destruct (f x); by constructor.
Qed.

Lemma filter_elem_of {A} (f : A -> bool) (l : list A) x :
  x ∈ List.filter f l <-> x ∈ l /\ f x = true.
Proof. rewrite !list_elem_of_In. apply filter_In. Qed.

Lemma filter_filter_length {A} (f g : A -> bool) (l : list A) :
  length (List.filter f (List.filter g l)) <= length (List.filter f l).
Proof.
  induction l as [|x l IH]; [done|]. rewrite !filter_cons.
  destruct (g x), (f x) eqn:E; rewrite ?filter_cons, ?E; simpl; lia.
Qed.

(** The rows written by [activate_model]. *)
Lemma activate_rows_same mid t (model : MLModel) rows :
  NoDup (map id rows) -> model ∈ rows -> id model = mid -> model_type model = t ->
  List.filter (activated t)
    (map (fun m => if Z.eqb (id m) mid then set_active true m else m)
         (deactivate_type t rows))
  = [set_active true model].
Proof.
  intros Hnd Hin Hid Ht. induction rows as [|r rows IH]; [by apply elem_of_nil in Hin|].
  cbn [map] in Hnd. apply NoDup_cons in Hnd as [Hr Hnd].
  rewrite deactivate_type_cons. cbn [map]. rewrite filter_cons.
  assert (Hid' : id (if activated t r then set_active false r else r) = id r)
    by by destruct (activated t r).
  rewrite Hid'. destruct (Z.eqb_spec (id r) mid) as [Heq|Hne].
  - assert (model = r) as ->.
    { apply elem_of_cons in Hin as [?|Hin]; [done|]. exfalso. apply Hr.
      rewrite Heq, <- Hid. by apply (list_elem_of_fmap_2 id). }
    assert (set_active true (if activated t r then set_active false r else r)
            = set_active true r) as -> by by destruct (activated t r).
    rewrite activated_set_active, Ht, String.eqb_refl. cbn [andb]. f_equal.
    rewrite <- (deactivate_type_same t rows). f_equal.
    rewrite <- (map_id (deactivate_type t rows)) at 2. apply map_ext_in.
    intros m Hm. destruct (Z.eqb_spec (id m) mid) as [Hm'|]; [|done].
    exfalso. apply Hr. rewrite Heq, <- Hm', <- (deactivate_type_ids t rows).
    apply (list_elem_of_fmap_2 id). by apply list_elem_of_In.
  - assert (activated t (if activated t r then set_active false r else r) = false) as ->.
    { destruct (activated t r) eqn:E; [|done].
      by rewrite activated_set_active, andb_false_r. }
    apply IH; [done|]. apply elem_of_cons in Hin as [->|?]; [|done]. congruence.
Qed.

Lemma activate_rows_other mid t t' rows :
  t' <> t -> (forall m, m ∈ rows -> id m = mid -> model_type m = t) ->
  List.filter (activated t')
    (map (fun m => if Z.eqb (id m) mid then set_active true m else m)
         (deactivate_type t rows))
  = List.filter (activated t') rows.
Proof.
  intros Hne Hty. induction rows as [|r rows IH]; [done|].
  rewrite deactivate_type_cons. cbn [map]. rewrite !filter_cons.
  rewrite IH by (intros m Hm; apply Hty; by right).
  assert (Hid' : id (if activated t r then set_active false r else r) = id r)
    by by destruct (activated t r).
  rewrite Hid'. destruct (Z.eqb_spec (id r) mid) as [Heq|Hneq].
  - assert (model_type r = t) as Hr by (apply Hty; [by left|done]).
    assert (String.eqb (model_type r) t' = false) as Hf
      by (apply String.eqb_neq; congruence).
    rewrite activated_set_active.
    assert (model_type (if activated t r then set_active false r else r) = model_type r)
      as -> by by destruct (activated t r).
    assert (activated t' r = false) as -> by (unfold activated; by rewrite Hf).
    by rewrite Hf.
  - destruct (activated t r) eqn:E; [|done].
    rewrite (activated_other _ _ _ Hne E).
    by rewrite activated_set_active, andb_false_r.
Qed.

Lemma activate_rows_ids mid t rows :
  map id (map (fun m => if Z.eqb (id m) mid then set_active true m else m)
              (deactivate_type t rows))
  = map id rows.
Proof.
  rewrite map_map, <- (deactivate_type_ids t rows). apply map_ext.
  intros m. by destruct (Z.eqb _ _).
Qed.

Lemma find_by_id mid rows (model : MLModel) :
  List.find (fun m => Z.eqb (id m) mid) rows = Some model ->
  model ∈ rows /\ id model = mid.
Proof.
  intros [Hin Hid]%find_some. split; [by apply list_elem_of_In|].
  by apply Z.eqb_eq.
Qed.

Lemma primary_key_unique rows (m m' : MLModel) :
  NoDup (map id rows) -> m ∈ rows -> m' ∈ rows -> id m = id m' -> m = m'.
Proof.
  induction rows as [|r rows IH]; [by intros _ ?%elem_of_nil|].
  cbn [map]. intros [Hr Hnd]%NoDup_cons Hm Hm' Hid.
  apply elem_of_cons in Hm as [->|Hm]; apply elem_of_cons in Hm' as [->|Hm'].
  - done.
  - exfalso. apply Hr. rewrite Hid. by apply (list_elem_of_fmap_2 id).
  - exfalso. apply Hr. rewrite <- Hid. by apply (list_elem_of_fmap_2 id).
  - by apply IH.
Qed.

(** *** The invariant: a primary key, and at most one active model per type *)

Lemma save_model_Ok name type metrics hyper run_id now db new_id db' :
  save_model name type metrics hyper run_id now db = (Ok new_id, db') ->
  new_id = next_id (ml_models db) /\
  exists m, id m = new_id /\ model_name m = name /\ model_type m = type /\
            is_active m = true /\
            ml_models db' = deactivate_type type (ml_models db) ++ [m].
Proof.
  unfold save_model. destruct (existsb _ _); [discriminate|].
  intros [= <- <-]. split; [done|]. eexists. by repeat split.
Qed.

Lemma save_model_rows name type metrics hyper run_id now db :
  ml_models (save_model name type metrics hyper run_id now db).2 = ml_models db \/
  exists m, id m = next_id (ml_models db) /\ model_type m = type /\ is_active m = true /\
    ml_models (save_model name type metrics hyper run_id now db).2
    = deactivate_type type (ml_models db) ++ [m].
Proof.
  unfold save_model. destruct (existsb _ _); [by left|].
  right. eexists. by repeat split.
Qed.

Lemma invariant_append_new db t (m : MLModel) rows' :
  registry_invariant db ->
  id m = next_id (ml_models db) -> model_type m = t -> is_active m = true ->
  rows' = deactivate_type t (ml_models db) ++ [m] ->
  NoDup (map id rows') /\
  List.filter (activated t) rows' = [m] /\
  forall t', t' <> t -> List.filter (activated t') rows'
                         = List.filter (activated t') (ml_models db).
Proof.
  intros [Hpk Hone] Hid Ht Ha ->. split; [|split].
  - rewrite map_app, deactivate_type_ids. apply NoDup_app. split; [done|].
    split; [|apply NoDup_singleton].
    intros x Hx [->|[]%elem_of_nil]%elem_of_cons.
    apply (next_id_fresh (ml_models db)). rewrite <- Hid. by apply list_elem_of_In.
  - rewrite List.filter_app, deactivate_type_same. cbn.
    unfold activated. by rewrite Ht, String.eqb_refl, Ha.
  - intros t' Hne. rewrite List.filter_app, deactivate_type_other by done.
    cbn. unfold activated at 2. rewrite Ht.
    assert (String.eqb t t' = false) as -> by (apply String.eqb_neq; congruence).
    cbn. apply app_nil_r.
Qed.

Lemma invariant_delete_models doomed db :
  registry_invariant db -> registry_invariant (delete_models doomed db).
Proof.
  intros [Hpk Hone]. split.
  - unfold primary_key, delete_models. cbn.
    apply (sublist_NoDup _ (map id (ml_models db))); [exact Hpk|apply (fmap_sublist id), filter_sublist].
  - intros t. unfold active_models, delete_models. cbn.
    etransitivity; [apply filter_filter_length|]. apply Hone.
Qed.

(** As the modules stand, the placeholder insert and the periodic cleanup
    stop at the unbound name [MLModel] and leave the registry as it is. *)
Lemma add_default_model_raises now db :
  add_default_model now db = (Err (NameError "MLModel"), db).
Proof. reflexivity. Qed.

Lemma task_cleanup_old_models_raises now db :
  task_cleanup_old_models now db = (Err (NameError "MLModel"), db).
Proof. reflexivity. Qed.

Lemma invariant_step db db' :
  registry_invariant db -> step db db' -> registry_invariant db'.
Proof.
  intros Hinv Hstep. destruct Hstep.
  - destruct (save_model_rows name type metrics hyper run_id now db)
      as [Hsame|(m & Hid & Ht & Ha & Hrows)].
    + destruct Hinv as [Hpk Hone]. split.
      * unfold primary_key. by rewrite Hsame.
      * intros t. unfold active_models. rewrite Hsame. apply Hone.
    + destruct (invariant_append_new db type m _ Hinv Hid Ht Ha Hrows)
        as (Hnd & Hsame & Hother).
      split; [done|]. intros t. unfold active_models.
      destruct (decide (t = type)) as [->|Hne].
      * by rewrite Hsame.
      * rewrite Hother by done. apply Hinv.
  - unfold activate_model.
    destruct (List.find _ _) as [model|] eqn:Hfind; [|done].
    apply find_by_id in Hfind as [Hin Hid]. destruct Hinv as [Hpk Hone]. split.
    + unfold primary_key. cbn. by rewrite activate_rows_ids.
    + intros t. unfold active_models. cbn.
      destruct (decide (t = model_type model)) as [->|Hne].
      * by rewrite (activate_rows_same _ _ model).
      * rewrite activate_rows_other; [apply Hone|done|].
        intros m Hm Hmid. f_equal. apply (primary_key_unique (ml_models db)); try done.
        congruence.
  - by rewrite add_default_model_raises.
  - by apply invariant_delete_models.
  - by rewrite task_cleanup_old_models_raises.
Qed.

Lemma reachable_invariant db : reachable db -> registry_invariant db.
Proof.
  induction 1 as [|db db' _ IH Hstep].
  - split; [apply NoDup_nil_2|]. intros t. cbn. lia.
  - by eapply invariant_step.
Qed.

(** C1.  In every store that the system can reach, each type has at most one
    active model.  After a successful [save_model] for a type, the active
    models of that type are exactly the model just saved; after a successful
    [activate_model], the active models of the type of the activated model
    are exactly that model. *)
Theorem C1_single_active_model (db : Store) (Hreach : reachable db) :
  (forall t, length (active_models t db) <= 1) /\
  (forall name type metrics hyper run_id now new_id db',
      save_model name type metrics hyper run_id now db = (Ok new_id, db') ->
      exists m, active_models type db' = [m] /\ id m = new_id /\ model_name m = name) /\
  (forall model_id message db',
      activate_model model_id db = (Ok message, db') ->
      exists m, id m = model_id /\ active_models (model_type m) db' = [m]) /\
  (forall db', step db db' -> forall t, length (active_models t db') <= 1).
Proof.
  pose proof (reachable_invariant db Hreach) as Hinv.
  split; [apply Hinv|]. split; [|split].
  - intros name type metrics hyper run_id now new_id db' Hsave.
    apply save_model_Ok in Hsave as (Hnew & m & Hid & Hname & Ht & Ha & Hrows).
    exists m. split; [|done]. subst new_id.
    by destruct (invariant_append_new db type m _ Hinv Hid Ht Ha Hrows) as (_ & ? & _).
  - intros model_id message db'. unfold activate_model.
    destruct (List.find _ _) as [model|] eqn:Hfind; [|discriminate].
    intros [= _ <-]. apply find_by_id in Hfind as [Hin Hid].
    exists (set_active true model). split; [done|].
    unfold active_models. cbn. apply activate_rows_same; try done. apply Hinv.
  - intros db' Hstep. by apply (invariant_step db db').
Qed.


Lemma C1_single_active_model_witness :
  reachable store_after_saves /\
  (forall t, length (active_models t store_after_saves) <= 1) /\
  map model_name (active_models "random_forest" store_after_saves) = ["rf_a"].
Proof.
  assert (Hreach : reachable store_after_saves).
  { unfold store_after_saves. cbv zeta.
    refine (reachable_step _ _ _ (step_activate_model _ _)).
    refine (reachable_step _ _ _ (step_save_model _ _ _ _ _ _ _)).
    refine (reachable_step _ _ _ (step_save_model _ _ _ _ _ _ _)).
    refine (reachable_step _ _ _ (step_save_model _ _ _ _ _ _ _)).
    apply reachable_empty. }
  split; [exact Hreach|]. split.
  - exact (proj1 (C1_single_active_model store_after_saves Hreach)).
  - vm_compute; reflexivity.
Defined.

(** *** Retention cleanup *)

Lemma delete_models_elem_of doomed db (m : MLModel) :
  m ∈ ml_models (delete_models doomed db) <->
  m ∈ ml_models db /\ forall d, d ∈ doomed -> id d <> id m.
Proof.
  unfold delete_models. cbn. rewrite filter_elem_of, negb_true_iff.
  split; intros [Hin H]; (split; [done|]).
  - intros d Hd Hid. assert (existsb (fun d => Z.eqb (id d) (id m)) doomed = true) as E.
    { apply existsb_exists. exists d. split; [by apply list_elem_of_In|by apply Z.eqb_eq]. }
    congruence.
  - destruct (existsb _ _) eqn:E; [|done].
    apply existsb_exists in E as (d & Hd%list_elem_of_In & Hid%Z.eqb_eq).
    by destruct (H d Hd).
Qed.

(** With a primary key, a row disappears only when it is itself deleted. *)
Lemma delete_models_removed doomed db (m : MLModel) :
  primary_key db -> (forall d, d ∈ doomed -> d ∈ ml_models db) ->
  m ∈ ml_models db -> m ∉ ml_models (delete_models doomed db) -> m ∈ doomed.
Proof.
  intros Hpk Hsub Hin Hgone.
  destruct (existsb (fun d => Z.eqb (id d) (id m)) doomed) eqn:E.
  - apply existsb_exists in E as (d & Hd%list_elem_of_In & Hid%Z.eqb_eq).
    by rewrite <- (primary_key_unique _ d m Hpk (Hsub d Hd) Hin Hid).
  - exfalso. apply Hgone. unfold delete_models. cbn.
    apply filter_elem_of. by rewrite E.
Qed.

Lemma old_inactive_spec cutoff m :
  old_inactive cutoff m = true <-> is_active m = false /\ (created_at m < cutoff)%Z.
Proof.
  unfold old_inactive. rewrite andb_true_iff, negb_true_iff, Z.ltb_lt. tauto.
Qed.


(** The grouping loop: each group holds the models of its type, in order. *)
Lemma append_to_keys groups m k :
  k ∈ map fst (append_to groups m) <-> (k ∈ map fst groups \/ k = model_type m).
Proof.
  induction groups as [|[t0 ms0] groups IH]; cbn.
  - rewrite elem_of_cons. split.
    + intros [->|H]; [by right|by apply elem_of_nil in H].
    + intros [H| ->]; [by apply elem_of_nil in H|by left].
  - destruct (String.eqb_spec t0 (model_type m)) as [->|Hne]; cbn.
    + rewrite !elem_of_cons. intuition congruence.
    + rewrite !elem_of_cons, IH. tauto.
Qed.

Lemma append_to_NoDup groups m :
  NoDup (map fst groups) -> NoDup (map fst (append_to groups m)).
Proof.
  induction groups as [|[t0 ms0] groups IH]; cbn.
  - intros _. apply NoDup_singleton.
  - intros [Hnotin Hnd]%NoDup_cons.
    destruct (String.eqb_spec t0 (model_type m)) as [->|Hne]; cbn.
    + by apply NoDup_cons.
    + apply NoDup_cons. split; [|by apply IH].
      rewrite append_to_keys. intros [?|?]; congruence.
Qed.

Lemma append_to_spec groups m t ms :
  NoDup (map fst groups) ->
  (t, ms) ∈ append_to groups m ->
  ((t, ms) ∈ groups /\ t <> model_type m) \/
  (t = model_type m /\ exists ms0, (t, ms0) ∈ groups /\ ms = ms0 ++ [m]) \/
  (t = model_type m /\ (t ∉ map fst groups) /\ ms = [m]).
Proof.
  induction groups as [|[t0 ms0] groups IH]; cbn.
  - intros _ [[= -> ->]|[]%elem_of_nil]%elem_of_cons. right. right.
    split; [done|]. split; [apply not_elem_of_nil|done].
  - intros [Hnotin Hnd]%NoDup_cons.
    destruct (String.eqb_spec t0 (model_type m)) as [->|Hne].
    + intros [[= -> ->]|Hin]%elem_of_cons.
      * right. left. split; [done|]. exists ms0. split; [by left|done].
      * left. split; [by right|]. intros ->. apply Hnotin.
        by apply (list_elem_of_fmap_2 fst _ (model_type m, ms)).
    + intros [[= -> ->]|Hin]%elem_of_cons.
      * left. split; [by left|done].
      * destruct (IH Hnd Hin) as [[? ?]|[(-> & ms1 & ? & ->)|(-> & ? & ->)]].
        -- left. split; [by right|done].
        -- right. left. split; [done|]. exists ms1. split; [by right|done].
        -- right. right. split; [done|]. split; [|done].
           rewrite elem_of_cons. intros [?|?]; congruence.
Qed.

Lemma filter_snoc {A} (f : A -> bool) l x :
  List.filter f (l ++ [x]) = List.filter f l ++ (if f x then [x] else []).
Proof. by rewrite List.filter_app. Qed.

Lemma filter_none {A} (f : A -> bool) l :
  (forall x, x ∈ l -> f x = false) -> List.filter f l = [].
Proof.
  induction l as [|x l IH]; [done|]. intros H. rewrite filter_cons, (H x) by by left.
  apply IH. intros y Hy. apply H. by right.
Qed.

Lemma group_by_type_spec l :
  NoDup (map fst (group_by_type l)) /\
  (forall x, x ∈ l -> model_type x ∈ map fst (group_by_type l)) /\
  forall t ms, (t, ms) ∈ group_by_type l -> ms = List.filter (of_type t) l.
Proof.
  induction l as [|m l IH] using rev_ind.
  - split; [apply NoDup_nil_2|]. split; [by intros x ?%elem_of_nil|].
    by intros t ms ?%elem_of_nil.
  - destruct IH as (Hnd & Hkeys & Hgroups).
    unfold group_by_type in *. rewrite foldl_snoc.
    split; [by apply append_to_NoDup|]. split.
    + intros x [Hx|Hx%list_elem_of_singleton]%elem_of_app; rewrite append_to_keys;
        [auto|right; congruence].
    + intros t ms Hin. rewrite filter_snoc.
      destruct (append_to_spec _ _ _ _ Hnd Hin)
        as [[Hg Hne]|[(-> & ms0 & Hg & ->)|(-> & Hnone & ->)]].
      * unfold of_type at 2.
        assert (String.eqb (model_type m) t = false) as ->
          by (apply String.eqb_neq; congruence).
        rewrite app_nil_r. by apply Hgroups.
      * unfold of_type at 2. rewrite String.eqb_refl. f_equal. by apply Hgroups.
      * unfold of_type at 2. rewrite String.eqb_refl.
        rewrite filter_none; [done|]. intros x Hx. unfold of_type.
        apply String.eqb_neq. intros Heq. apply Hnone. rewrite <- Heq. by apply Hkeys.
Qed.

(** The sort by descending F1. *)
Lemma insert_by_f1_perm m l : insert_by_f1 m l ≡ₚ m :: l.
Proof.
  induction l as [|m' l IH]; cbn; [done|].
  destruct (Qle_bool _ _); [done|]. rewrite IH. apply Permutation_swap.
Qed.

Lemma sort_by_f1_perm l : sort_by_f1 l ≡ₚ l.
Proof.
  induction l as [|m l IH]; cbn; [done|]. by rewrite insert_by_f1_perm, IH.
Qed.

Lemma insert_by_f1_sorted m l :
  StronglySorted f1_ge l -> StronglySorted f1_ge (insert_by_f1 m l).
Proof.
  induction 1 as [|m' l Hs IH Hall]; cbn.
  - repeat constructor.
  - destruct (Qle_bool (f1_score m') (f1_score m)) eqn:E.
    + apply Qle_bool_iff in E. constructor; [by constructor|].
      constructor; [done|]. eapply Forall_impl; [exact Hall|].
      intros x Hx. unfold f1_ge in *. by apply Qle_trans with (f1_score m').
    + constructor; [done|]. rewrite insert_by_f1_perm. constructor; [|done].
      unfold f1_ge. apply Qlt_le_weak, Qnot_le_lt. intros Hle%Qle_bool_iff. congruence.
Qed.

Lemma sort_by_f1_sorted l : StronglySorted f1_ge (sort_by_f1 l).
Proof.
  induction l as [|m l IH]; cbn; [constructor|]. by apply insert_by_f1_sorted.
Qed.

Lemma sorted_take_drop {A} (R : A -> A -> Prop) (l : list A) k x y :
  StronglySorted R l -> x ∈ take k l -> y ∈ drop k l -> R x y.
Proof.
  intros Hs. revert k. induction Hs as [|a l Hs IH Hall]; intros k.
  - rewrite take_nil. by intros ?%elem_of_nil.
  - destruct k as [|k]; cbn; [by intros ?%elem_of_nil|].
    intros [->|Hx]%elem_of_cons Hy.
    + rewrite Forall_forall in Hall. apply Hall.
      eapply elem_of_sublist; [exact Hy|]. apply sublist_drop.
    + by apply (IH k).
Qed.

Lemma slice_from_nonneg {A} k (l : list A) :
  (0 <= k)%Z -> slice_from k l = drop (Z.to_nat k) l.
Proof. intros H. unfold slice_from. by rewrite (proj2 (Z.leb_le 0 k) H). Qed.

Lemma slice_from_sublist {A} k (l : list A) : slice_from k l `sublist_of` l.
Proof. unfold slice_from. destruct (Z.leb 0 k); apply sublist_drop. Qed.

(** A deleted model is in the slice of the sorted models of its type. *)
Lemma models_to_delete_slice retention_days keep_best now rows d :
  d ∈ models_to_delete retention_days keep_best now rows ->
  d ∈ slice_from keep_best
        (sort_by_f1 (List.filter (of_type (model_type d))
           (List.filter (old_inactive (now - retention_days * seconds_per_day)) rows))).
Proof.
  unfold models_to_delete.
  set (old := List.filter _ rows).
  intros (ds & Hds & Hd)%list_elem_of_In%in_concat.
  apply list_elem_of_In in Hd.
  apply list_elem_of_In, list_elem_of_fmap in Hds as ([t ms] & -> & Hg). cbn in Hd.
  destruct (group_by_type_spec old) as (_ & _ & Hgroups).
  rewrite (Hgroups t ms Hg) in Hd.
  assert (model_type d = t) as ->; [|done].
  assert (d ∈ List.filter (of_type t) old) as Hin.
  { rewrite <- sort_by_f1_perm.
    eapply elem_of_sublist; [exact Hd|apply slice_from_sublist]. }
  apply filter_elem_of in Hin as [_ Ht]. by apply String.eqb_eq in Ht.
Qed.

(** With a count that is not negative it sits behind the first [keep_best]
    models of its type in the descending order. *)
Lemma models_to_delete_spec retention_days keep_best now rows d :
  (0 <= keep_best)%Z ->
  d ∈ models_to_delete retention_days keep_best now rows ->
  d ∈ drop (Z.to_nat keep_best)
        (sort_by_f1 (List.filter (of_type (model_type d))
           (List.filter (old_inactive (now - retention_days * seconds_per_day)) rows))).
Proof.
  intros Hk Hd%models_to_delete_slice. by rewrite slice_from_nonneg in Hd.
Qed.

Lemma models_to_delete_old retention_days keep_best now rows d :
  d ∈ models_to_delete retention_days keep_best now rows ->
  d ∈ rows /\ old_inactive (now - retention_days * seconds_per_day) d = true.
Proof.
  intros Hd%models_to_delete_slice.
  eapply elem_of_sublist in Hd; [|apply slice_from_sublist].
  rewrite sort_by_f1_perm in Hd.
  apply filter_elem_of in Hd as [Hd _]. by apply filter_elem_of in Hd.
Qed.

Lemma primary_key_NoDup db : primary_key db -> NoDup (ml_models db).
Proof. apply NoDup_fmap_1. Qed.

(** C8 (as the code has it).  Every cleanup only takes rows away, and a row
    that goes is inactive and older than the cutoff, whatever [keep_best]
    is: an active model is never deleted.  With a [keep_best] that is not
    negative, for every model that a cleanup deletes there remain
    [keep_best] other inactive old models of the same type, each with an F1
    score at least as high: the best [keep_best] by descending F1 are kept,
    equal scores in the order of the rows. *)
Theorem C8_cleanup_retention (db : Store) (retention_days keep_best now : Z)
  (Hpk : primary_key db) :
  let cutoff := (now - retention_days * seconds_per_day)%Z in
  let db' := manager_cleanup_old_models retention_days keep_best now db in
  let db'' := (task_cleanup_old_models now db).2 in
  ml_models db' `sublist_of` ml_models db /\
  (forall m, m ∈ ml_models db -> m ∉ ml_models db' ->
     is_active m = false /\ (created_at m < cutoff)%Z) /\
  ((0 <= keep_best)%Z ->
   forall m, m ∈ ml_models db -> m ∉ ml_models db' ->
     exists kept, length kept = Z.to_nat keep_best /\ NoDup kept /\
       forall k, k ∈ kept ->
         k ∈ ml_models db' /\ model_type k = model_type m /\
         is_active k = false /\ (created_at k < cutoff)%Z /\
         (f1_score m <= f1_score k)%Q) /\
  ml_models db'' `sublist_of` ml_models db /\
  (forall m, m ∈ ml_models db -> m ∉ ml_models db'' ->
     is_active m = false /\ (created_at m < now - 30 * seconds_per_day)%Z) /\
  ((0 <= keep_best)%Z ->
   forall m, m ∈ ml_models db -> m ∉ ml_models db'' ->
     exists kept, length kept = Z.to_nat keep_best /\ NoDup kept /\
       forall k, k ∈ kept ->
         k ∈ ml_models db'' /\ model_type k = model_type m /\
         is_active k = false /\ (created_at k < now - 30 * seconds_per_day)%Z /\
         (f1_score m <= f1_score k)%Q).
Proof.
  intros cutoff db' db''.
  assert (Hsub : forall d, d ∈ models_to_delete retention_days keep_best now (ml_models db)
                           -> d ∈ ml_models db).
  { intros d Hd. by apply models_to_delete_old in Hd as [? _]. }
  split; [apply filter_sublist|]. split; [|split; [|split; [|split]]].
  - intros m Hin Hgone.
    pose proof (delete_models_removed _ _ _ Hpk Hsub Hin Hgone) as Hm.
    destruct (models_to_delete_old _ _ _ _ _ Hm) as [_ Hold].
    by apply old_inactive_spec in Hold.
  - intros Hkeep m Hin Hgone.
    pose proof (delete_models_removed _ _ _ Hpk Hsub Hin Hgone) as Hm.
    pose proof (models_to_delete_spec _ _ _ _ _ Hkeep Hm) as Hdrop.
    fold cutoff in Hdrop.
    set (S := sort_by_f1 (List.filter (of_type (model_type m))
                 (List.filter (old_inactive cutoff) (ml_models db)))) in *.
    assert (HndS : NoDup S).
    { unfold S. rewrite sort_by_f1_perm.
      eapply sublist_NoDup; [by apply primary_key_NoDup|].
      etransitivity; apply filter_sublist. }
    assert (HinS : forall x, x ∈ S ->
              x ∈ ml_models db /\ model_type x = model_type m /\
              is_active x = false /\ (created_at x < cutoff)%Z).
    { intros x Hx. unfold S in Hx. rewrite sort_by_f1_perm in Hx.
      apply filter_elem_of in Hx as [Hx Ht]. apply filter_elem_of in Hx as [Hx Ho].
      apply old_inactive_spec in Ho as [? ?]. apply String.eqb_eq in Ht. done. }
    exists (take (Z.to_nat keep_best) S). split; [|split].
    + apply length_take_le.
      destruct (decide (length S <= Z.to_nat keep_best)) as [Hle|]; [|lia].
      rewrite (drop_ge _ _ Hle) in Hdrop. by apply elem_of_nil in Hdrop.
    + eapply sublist_NoDup; [exact HndS|apply sublist_take].
    + intros k Hk.
      assert (HkS : k ∈ S) by (eapply elem_of_sublist; [exact Hk|apply sublist_take]).
      destruct (HinS k HkS) as (Hkin & Hkt & Hka & Hkc).
      split; [|split; [done|split; [done|split; [done|]]]].
      * apply delete_models_elem_of. split; [done|]. intros d Hd Hid.
        assert (d = k) as -> by by apply (primary_key_unique (ml_models db)); auto.
        apply (models_to_delete_spec _ _ _ _ _ Hkeep) in Hd.
        fold cutoff in Hd. rewrite Hkt in Hd. fold S in Hd.
        rewrite <- (take_drop (Z.to_nat keep_best) S) in HndS.
        apply NoDup_app in HndS as (_ & Hdisj & _). by apply (Hdisj k).
      * by apply (sorted_take_drop f1_ge S (Z.to_nat keep_best));
          [apply sort_by_f1_sorted|..].
  - unfold db''. by rewrite task_cleanup_old_models_raises.
  - unfold db''. rewrite task_cleanup_old_models_raises. by intros m Hin Hgone.
  - unfold db''. rewrite task_cleanup_old_models_raises. by intros _ m Hin Hgone.
Qed.

Lemma C8_cleanup_retention_witness :
  primary_key tie_store /\
  ml_models (manager_cleanup_old_models 30 1 tie_now tie_store)
    `sublist_of` ml_models tie_store /\
  (newer_model ∉ ml_models (manager_cleanup_old_models 30 1 tie_now tie_store)) /\
  exists kept, length kept = 1 /\ NoDup kept /\
    forall k, k ∈ kept ->
      k ∈ ml_models (manager_cleanup_old_models 30 1 tie_now tie_store) /\
      model_type k = model_type newer_model /\
      is_active k = false /\ (created_at k < tie_now - 30 * seconds_per_day)%Z /\
      (f1_score newer_model <= f1_score k)%Q.
Proof.
  assert (Hpk : primary_key tie_store).
  { unfold primary_key. cbn. apply NoDup_ListNoDup.
    repeat constructor; cbn; intuition discriminate. }
  assert (Hin : newer_model ∈ ml_models tie_store) by (right; left).
  assert (Hgone : newer_model
                  ∉ ml_models (manager_cleanup_old_models 30 1 tie_now tie_store)).
  { assert (ml_models (manager_cleanup_old_models 30 1 tie_now tie_store)
            = [older_model; serving_model]) as -> by (vm_compute; reflexivity).
    intros H.
    repeat (apply elem_of_cons in H as [H|H];
            [apply (f_equal id) in H; vm_compute in H; discriminate|]).
    by apply elem_of_nil in H. }
  destruct (C8_cleanup_retention tie_store 30 1 tie_now Hpk)
    as (Hsub & _ & Hbest & _).
  split; [exact Hpk|]. split; [exact Hsub|]. split; [exact Hgone|].
  apply (Hbest ltac:(lia) newer_model Hin Hgone).
Defined.

(** C8 fails as stated.  Two inactive models of one type, both older than the
    cutoff, have the same F1 score; with [keep_best = 1] the cleanup keeps
    the one that is stored first, the older one, and deletes the newer. *)
Lemma C8_counterexample :
  model_type older_model = model_type newer_model /\
  f1_score older_model = f1_score newer_model /\
  (created_at older_model < created_at newer_model)%Z /\
  old_inactive (tie_now - 30 * seconds_per_day) older_model = true /\
  old_inactive (tie_now - 30 * seconds_per_day) newer_model = true /\
  ml_models (manager_cleanup_old_models 30 1 tie_now tie_store)
  = [older_model; serving_model] /\
  model_file (model_name newer_model)
    ∉ files (manager_cleanup_old_models 30 1 tie_now tie_store).
Proof.
  repeat split; try (vm_compute; reflexivity).
  apply (bool_decide_unpack _). vm_compute. exact I.
Qed.

End RegistryFacts.

(** ** The training engine *)

Module TrainingFacts.
Import Registry Training.

Lemma n_test_le n : n_test n <= n.
Proof.
  unfold n_test. destruct n as [|n]; [done|].
  apply Nat.Div0.div_le_upper_bound. lia.
Qed.

Section Split.
Context `{Estimators}.
Hypothesis permutation_spec : forall n, permutation n ≡ₚ seq 0 n.

Lemma permutation_length n : length (permutation n) = n.
Proof using permutation_spec. by rewrite permutation_spec, length_seq. Qed.

Lemma train_indices_drop n :
  train_indices n = drop (n_test n) (permutation n).
Proof using permutation_spec.
  unfold train_indices. apply take_ge.
  rewrite length_drop, permutation_length. lia.
Qed.

Lemma split_lengths n :
  length (test_indices n) = n_test n /\ length (train_indices n) = n - n_test n.
Proof using permutation_spec.
  rewrite train_indices_drop. unfold test_indices.
  rewrite length_take, length_drop, permutation_length.
  pose proof (n_test_le n). lia.
Qed.

Lemma split_covers n : train_indices n ++ test_indices n ≡ₚ seq 0 n.
Proof using permutation_spec.
  rewrite train_indices_drop. unfold test_indices.
  rewrite (comm app), take_drop. apply permutation_spec.
Qed.

Lemma split_disjoint n i : i ∈ train_indices n -> i ∉ test_indices n.
Proof using permutation_spec.
  rewrite train_indices_drop. unfold test_indices. intros Hi Hv.
  assert (Hnd : NoDup (take (n_test n) (permutation n) ++ drop (n_test n) (permutation n))).
  { rewrite take_drop, permutation_spec. apply NoDup_seq. }
  apply NoDup_app in Hnd as (_ & Hdisj & _). by apply (Hdisj i).
Qed.
End Split.

Lemma train_test_split_Ok `{Estimators} X y r :
  train_test_split X y = Ok r ->
  0 < n_rows X - n_test (n_rows X) /\
  r = (iloc (train_indices (n_rows X)) X, iloc (test_indices (n_rows X)) X,
       take_rows (train_indices (n_rows X)) y, take_rows (test_indices (n_rows X)) y).
Proof.
  unfold train_test_split. destruct (negb _); [discriminate|].
  destruct (Nat.eqb_spec (n_rows X - n_test (n_rows X)) 0); [discriminate|].
  intros [= <-]. split; [lia|done].
Qed.

(** C7.  When [train_model] returns, the rows were split by the fixed
    permutation into a validation part of [ceil(n/5)] rows and a training
    part of the others; no row is in both; the model was fitted on the
    training part only; accuracy, weighted precision, recall and F1 are those
    of the predictions on the validation part only; the AUC is that of the
    validation part, and [0] when the model has no [predict_proba]. *)
Theorem C7_metrics_on_held_out_split `{Estimators}
  (X : list (string * Column)) (y : list Q) (model_type : string)
  (hyperparameters : option (list (string * HyperValue)))
  (experiment_name run_id rid : string) (model : Model) (metrics : gmap string Q)
  (events : list Event)
  (Hperm : forall n, permutation n ≡ₚ seq 0 n)
  (Htrain : train_model X y model_type hyperparameters experiment_name run_id
            = (Ok (model, metrics, rid), events)) :
  let n := n_rows X in
  let train := train_indices n in
  let val := test_indices n in
  length val = (n + 4) / 5 /\
  length train = n - (n + 4) / 5 /\
  0 < length train /\
  train ++ val ≡ₚ seq 0 n /\
  (forall i, i ∈ train -> i ∉ val) /\
  exists model_class hyper,
    models model_type = Some model_class /\
    model_fit model_class hyper (iloc train X) (take_rows train y) = Ok model /\
    let y_val := take_rows val y in
    let y_pred := model_predict model (iloc val X) in
    metrics !! "accuracy" = Some (accuracy_score y_val y_pred) /\
    metrics !! "precision" = Some (precision_score_weighted y_val y_pred) /\
    metrics !! "recall" = Some (recall_score_weighted y_val y_pred) /\
    metrics !! "f1_score" = Some (f1_score_weighted y_val y_pred) /\
    match model_predict_proba model with
    | None => metrics !! "auc_score" = Some 0%Q
    | Some proba =>
        exists auc, roc_auc_score y_val (proba (iloc val X)) = Ok auc /\
                    metrics !! "auc_score" = Some auc
    end.
Proof.
  intros n train val.
  destruct (split_lengths Hperm n) as [Hlv Hlt].
  unfold train_model in Htrain.
  destruct (train_test_split X y) as [[[[Xt Xv] yt] yv]|e] eqn:Hsplit; [|by inversion Htrain].
  apply train_test_split_Ok in Hsplit as [Hpos [= -> -> -> ->]].
  destruct (models model_type) as [model_class|]; [|by inversion Htrain].
  match type of Htrain with
  | context [model_fit model_class ?h _ _] => set (hyper := h) in *
  end.
  destruct (model_fit model_class hyper _ _) as [model'|e] eqn:Hfit; [|by inversion Htrain].
  fold n train val in Hfit, Htrain.
  split; [done|]. split; [done|]. split; [fold n in Hpos; unfold train; lia|].
  split; [by apply split_covers|]. split; [by apply split_disjoint|].
  exists model_class, hyper. split; [done|].
  destruct (model_predict_proba model') as [proba|] eqn:Hproba.
  - destruct (roc_auc_score _ _) as [auc|e] eqn:Hauc; [|by inversion Htrain].
    injection Htrain as <- <- <- <-. rewrite Hproba.
    split; [done|]. repeat (split; [by simplify_map_eq|]).
    exists auc. split; [done|by simplify_map_eq].
  - injection Htrain as <- <- <- <-. rewrite Hproba.
    split; [done|]. repeat (split; [by simplify_map_eq|]). by simplify_map_eq.
Qed.

Lemma C7_metrics_on_held_out_split_witness :
  train_model example_X example_y "random_forest" None
    "respiratory_mortality_prediction" "run-1"
  = (Ok (example_model, example_metrics, "run-1"), example_training.2) /\
  length (test_indices (n_rows example_X)) = (n_rows example_X + 4) / 5 /\
  example_metrics !! "auc_score" = Some (1 # 2).
Proof.
  assert (Hrun : train_model example_X example_y "random_forest" None
                   "respiratory_mortality_prediction" "run-1"
                 = (Ok (example_model, example_metrics, "run-1"), example_training.2))
    by (vm_compute; reflexivity).
  split; [exact Hrun|]. split; [|vm_compute; reflexivity].
  refine (proj1 (C7_metrics_on_held_out_split example_X example_y "random_forest" None
           "respiratory_mortality_prediction" "run-1" "run-1" example_model
           example_metrics example_training.2 _ Hrun)).
  intros n. cbn. symmetry. apply Permutation_rev.
Defined.

(** C5 (as the code has it).  For a model type outside
    [random_forest], [logistic_regression]: the endpoint
    [start_model_training] rejects the request with status 400 before it
    reads the data table, and queues nothing; [MLService.train_model] fits
    no estimator and raises, but only after it has called
    [train_test_split] on the data: the error is that of the split, or the
    [KeyError] of the lookup in [self.models]. *)
Theorem C5_unsupported_model_type `{Estimators} (request : Jobs.TrainingRequest)
  (app : Jobs.App) (X : list (string * Column)) (y : list Q)
  (hyperparameters : option (list (string * HyperValue)))
  (experiment_name run_id : string)
  (Hrf : Jobs.model_type request <> "random_forest")
  (Hlr : Jobs.model_type request <> "logistic_regression") :
  Jobs.start_model_training request app
  = (Err (HTTPException 400
       "Invalid model type. Must be 'random_forest' or 'logistic_regression'"),
     app, []) /\
  (train_model X y (Jobs.model_type request) hyperparameters experiment_name run_id
   = (Err (KeyError (Jobs.model_type request)),
      [SetExperiment experiment_name; TrainTestSplit (n_rows X); StartRun])
   \/
   exists e, train_test_split X y = Err e /\
     train_model X y (Jobs.model_type request) hyperparameters experiment_name run_id
     = (Err e, [SetExperiment experiment_name; TrainTestSplit (n_rows X)])).
Proof.
  apply String.eqb_neq in Hrf, Hlr. split.
  - unfold Jobs.start_model_training. cbn [existsb]. by rewrite Hrf, Hlr.
  - unfold train_model.
    destruct (train_test_split X y) as [[[[Xt Xv] yt] yv]|e]; [left|right; by exists e].
    unfold models. by rewrite Hrf, Hlr.
Qed.

Lemma C5_unsupported_model_type_witness :
  Jobs.start_model_training Jobs.unsupported_request Jobs.app_with_a_null
  = (Err (HTTPException 400
       "Invalid model type. Must be 'random_forest' or 'logistic_regression'"),
     Jobs.app_with_a_null, []).
Proof.
  refine (proj1 (C5_unsupported_model_type Jobs.unsupported_request
                   Jobs.app_with_a_null example_X example_y None
                   "respiratory_mortality_prediction" "run-1" _ _)); discriminate.
Defined.

(** C5 fails as stated for [MLService.train_model]: with the model type
    ["unsupported_model"] the data is split before the call fails, and the
    failure is the [KeyError] of the dictionary lookup. *)
Lemma C5_counterexample :
  train_model example_X example_y "unsupported_model" None
    "respiratory_mortality_prediction" "run-1"
  = (Err (KeyError "unsupported_model"),
     [SetExperiment "respiratory_mortality_prediction"; TrainTestSplit 2; StartRun]) /\
  is_ok (train_test_split example_X example_y) = true.
Proof. split; vm_compute; reflexivity. Qed.

(** C10.  While no model is loaded, [predict] raises [ValueError], returns
    no prediction and leaves the service as it is: it does not load or train
    a model. *)
Theorem C10_predict_without_active_model `{Estimators}
  (features : list (string * Column)) (return_probabilities : bool)
  (self : MLService) (Hnone : active_model self = None) :
  predict features return_probabilities self
  = (Err (ValueError "No active model loaded. Please load a model first."), self).
Proof. unfold predict. by rewrite Hnone. Qed.

Lemma C10_predict_without_active_model_witness :
  predict example_X true new_service
  = (Err (ValueError "No active model loaded. Please load a model first."),
     new_service).
Proof.
  apply (C10_predict_without_active_model example_X true new_service). reflexivity.
Defined.
End TrainingFacts.


(** ** Job submission *)

Module JobsFacts.
Import Jobs.

(** As [models.py] stands, a request with a supported model type stops at
    the unbound name [func] of line 97: the table is not read and nothing is
    queued. *)
Lemma start_model_training_supported request app :
  model_type request = "random_forest" \/ model_type request = "logistic_regression" ->
  start_model_training request app = (Err (NameError "func"), app, []).
Proof.
  intros H. unfold start_model_training. cbn [existsb].
  by destruct H as [-> | ->].
Qed.

(** No request is accepted: the endpoint always raises, leaves the
    application as it is and does not reach the data table. *)
Lemma start_model_training_rejects request app :
  exists e, start_model_training request app = (Err e, app, []).
Proof.
  unfold start_model_training.
  destruct (negb _); [by eexists|]. by eexists.
Qed.

(** The task raises when fewer than 1000 rows qualify, whatever the later
    stages are, and reports the failure. *)
Lemma train_model_task_insufficient {R} request
  (pipeline : TrainingRequest -> list RespiratoryMortality -> result R * list TaskState)
  app :
  length (List.filter qualifying (respiratory_mortality app)) < 1000 ->
  train_model_task request pipeline app
  = (Err (ValueError "Insufficient data for training"),
     [PROGRESS "Loading data" 10; FAILURE], [LoadRows]).
Proof.
  intros H. unfold train_model_task.
  by rewrite (proj2 (Nat.ltb_lt _ _) H).
Qed.

(** C4 is violated by the endpoint.  A request for a random forest on an
    empty data table does not end in the rejection with status 400 and
    ["Insufficient data"] that the claim and the test
    [test_start_training_insufficient_data] expect: the count of line 97
    raises [NameError].  No request queues a job. *)
Theorem C4_submission_raises_NameError :
  length (List.filter qualifying (respiratory_mortality empty_app)) = 0 /\
  start_model_training forest_request empty_app
  = (Err (NameError "func"), empty_app, []) /\
  start_model_training forest_request empty_app
  <> (Err (HTTPException 400
        "Insufficient data for training. Minimum 1000 records required."),
      empty_app, [CountRows]) /\
  (forall request app,
      task_queue (start_model_training request app).1.2 = task_queue app).
Proof.
  split; [reflexivity|]. split; [reflexivity|]. split; [discriminate|].
  intros request app.
  by destruct (start_model_training_rejects request app) as [e ->].
Qed.

End JobsFacts.

(** * Further properties of the code *)

(** ** The feature pipeline *)

Module PipelineFacts.

Lemma transform_on_new_processor_cases (fsqrt : Q -> Q) (df : DataFrame) :
  (Forall (fun name => is_Some (df !! name)) feature_columns /\
   prepare_model_data fsqrt df false init = (Err NotFittedError, init)) \/
  (exists before name after,
      feature_columns = before ++ name :: after /\
      Forall (fun name => is_Some (df !! name)) before /\
      df !! name = None /\
      prepare_model_data fsqrt df false init = (Err (KeyError name), init)).
Proof.
  unfold prepare_model_data. cbn [label_encoders scaler init].
  rewrite transform_encoders_loop_empty, result_bind_Ok.
  unfold select, feature_columns, getitem.
  destruct (df !! "county") as [c1|] eqn:H1; cycle 1.
  { right. exists [], "county", ["ten_year_age_groups"; "gender"; "year"; "population"; "state"].
    cbn. by rewrite H1. }
  destruct (df !! "ten_year_age_groups") as [c2|] eqn:H2; cycle 1.
  { right. exists ["county"], "ten_year_age_groups", ["gender"; "year"; "population"; "state"].
    cbn. rewrite H1, H2. repeat split; try done. repeat constructor; by rewrite ?H1. }
  destruct (df !! "gender") as [c3|] eqn:H3; cycle 1.
  { right. exists ["county"; "ten_year_age_groups"], "gender", ["year"; "population"; "state"].
    cbn. rewrite H1, H2, H3. repeat split; try done.
    repeat constructor; by rewrite ?H1, ?H2. }
  destruct (df !! "year") as [c4|] eqn:H4; cycle 1.
  { right. exists ["county"; "ten_year_age_groups"; "gender"], "year", ["population"; "state"].
    cbn. rewrite H1, H2, H3, H4. repeat split; try done.
    repeat constructor; by rewrite ?H1, ?H2, ?H3. }
  destruct (df !! "population") as [c5|] eqn:H5; cycle 1.
  { right. exists ["county"; "ten_year_age_groups"; "gender"; "year"], "population", ["state"].
    cbn. rewrite H1, H2, H3, H4, H5. repeat split; try done.
    repeat constructor; by rewrite ?H1, ?H2, ?H3, ?H4. }
  destruct (df !! "state") as [c6|] eqn:H6; cycle 1.
  { right. exists ["county"; "ten_year_age_groups"; "gender"; "year"; "population"], "state", [].
    cbn. rewrite H1, H2, H3, H4, H5, H6. repeat split; try done.
    repeat constructor; by rewrite ?H1, ?H2, ?H3, ?H4, ?H5. }
  left. split.
  - repeat constructor; by rewrite ?H1, ?H2, ?H3, ?H4, ?H5, ?H6.
  - cbn. by rewrite H1, H2, H3, H4, H5, H6.
Qed.

(** X1.  On a processor that was never fitted,
    [prepare_model_data(df, fit_encoders=False)] never returns: when the
    frame lacks a feature column, selecting the features raises [KeyError];
    otherwise the scaler raises [NotFittedError].  The processor stays as
    it was. *)
Theorem X1_transform_on_new_processor (fsqrt : Q -> Q) (df : DataFrame) :
  (Forall (fun name => is_Some (df !! name)) feature_columns /\
   prepare_model_data fsqrt df false init = (Err NotFittedError, init)) \/
  (Exists (fun name => df !! name = None) feature_columns /\
   exists k, prepare_model_data fsqrt df false init = (Err (KeyError k), init)).
Proof.
  destruct (transform_on_new_processor_cases fsqrt df)
    as [H|(before & name & after & Hfc & _ & Hnone & Hres)]; [by left|].
  right. split; [|by exists name].
  rewrite Hfc. apply Exists_app. right. by apply Exists_cons_hd.
Qed.

(** X2.  [engineer_features] leaves every column of the input as it is,
    except the seven columns it writes, and these are all in its result. *)
Theorem X2_engineer_features_keeps_columns (df out : DataFrame)
  (Hrun : engineer_features_frame df = Ok out) :
  (forall name, name ∉ engineered_columns -> out !! name = df !! name) /\
  Forall (fun name => is_Some (out !! name)) engineered_columns.
Proof.
  unfold engineer_features_frame in Hrun.
  repeat (apply bind_Ok in Hrun as (? & _ & Hrun)).
  injection Hrun as <-. split.
  - intros name Hname. unfold engineered_columns in Hname.
    repeat (rewrite not_elem_of_cons in Hname; destruct Hname as [? Hname]).
    by rewrite !lookup_insert_ne.
  - unfold engineered_columns. repeat constructor; by simplify_map_eq.
Qed.

Lemma X2_engineer_features_keeps_columns_witness :
  (forall name, name ∉ engineered_columns ->
                example_engineered !! name = example_frame !! name) /\
  Forall (fun name => is_Some (example_engineered !! name)) engineered_columns.
Proof.
  apply (X2_engineer_features_keeps_columns example_frame example_engineered).
  vm_compute; reflexivity.
Defined.

Lemma quantile_singleton (x q : Q) :
  exists v, quantile [x] q = Some v /\ (v == x)%Q.
Proof.
  unfold quantile. cbn [sort_values foldr insert_sorted length].
  eexists. split; [reflexivity|].
  set (h := (inject_Z (Z.of_nat 1 - 1) * q)%Q).
  destruct (Z.to_nat (Qfloor h)) as [|[|n]]; cbn [nth]; ring.
Qed.

(** X3.  A frame with a single record cannot be engineered: the six
    quantile edges of its one rate coincide and [pd.qcut] raises
    [ValueError]. *)
Theorem X3_engineer_features_single_record (df : DataFrame) (d p : Q) (g : Column)
  (Hdeaths : df !! "deaths" = Some (ColNum [d]))
  (Hpopulation : df !! "population" = Some (ColNum [p]))
  (Hp : ~ (p == 0)%Q)
  (Hgender : df !! "gender" = Some g) :
  exists msg, engineer_features_frame df = Err (ValueError msg).
Proof.
  exists "Bin edges must be unique".
  unfold engineer_features_frame, getitem.
  rewrite Hdeaths, Hpopulation. cbn [mbind result_bind to_numeric zip_with].
  rewrite !lookup_insert_ne, Hgender by done. cbn [mbind result_bind].
  set (x := mortality_rate d p).
  assert (qcut [x] 5 ["Very Low"; "Low"; "Medium"; "High"; "Very High"]
          = Err (ValueError "Bin edges must be unique")) as ->; [|done].
  unfold qcut.
  change (qcut_bins [x] 5) with
    (sequence_options
       [quantile [x] (0 # 5); quantile [x] (1 # 5); quantile [x] (2 # 5);
        quantile [x] (3 # 5); quantile [x] (4 # 5); quantile [x] (5 # 5)]).
  destruct (quantile_singleton x (0 # 5)) as (e0 & -> & H0).
  destruct (quantile_singleton x (1 # 5)) as (e1 & -> & H1).
  destruct (quantile_singleton x (2 # 5)) as (e2 & -> & H2).
  destruct (quantile_singleton x (3 # 5)) as (e3 & -> & H3).
  destruct (quantile_singleton x (4 # 5)) as (e4 & -> & H4).
  destruct (quantile_singleton x (5 # 5)) as (e5 & -> & H5).
  cbn [sequence_options option_map all_distinct existsb].
  assert (Qeq_bool e0 e1 = true) as ->; [|done].
  apply Qeq_bool_iff. by rewrite H0, H1.
Qed.

Lemma X3_engineer_features_single_record_witness :
  exists msg, engineer_features_frame single_record_frame = Err (ValueError msg).
Proof.
  apply (X3_engineer_features_single_record single_record_frame 25 10000
           (ColStr ["Male"])); [vm_compute; reflexivity ..| |vm_compute; reflexivity].
  intros H; discriminate H.
Defined.


(** *** Fitting *)

Lemma fit_encoders_loop_frame columns (df : DataFrame) e1 e2 :
  (fit_encoders_loop columns (df, e1)).1 = (fit_encoders_loop columns (df, e2)).1.
Proof.
  revert df e1 e2. induction columns as [|c columns IH]; intros df e1 e2; [done|].
  rewrite !fit_encoders_loop_cons.
  destruct (df !! c) as [col|] eqn:Hc.
  - rewrite !(fit_encoders_step_Some _ _ _ _ Hc). apply IH.
  - rewrite !(fit_encoders_step_None _ _ _ Hc). apply IH.
Qed.

Lemma fit_encoders_loop_frame_other columns (df : DataFrame) encoders (name : string) :
  name ∉ columns ->
  (fit_encoders_loop columns (df, encoders)).1 !! name = df !! name.
Proof.
  revert df encoders. induction columns as [|c columns IH]; intros df encoders Hn; [done|].
  apply not_elem_of_cons in Hn as [Hne Hn].
  rewrite fit_encoders_loop_cons.
  destruct (df !! c) as [col|] eqn:Hc.
  - rewrite (fit_encoders_step_Some _ _ _ _ Hc), IH by done.
    by rewrite lookup_insert_ne.
  - rewrite (fit_encoders_step_None _ _ _ Hc). by apply IH.
Qed.

Lemma fit_encoders_loop_frame_None columns (df : DataFrame) encoders (name : string) :
  df !! name = None ->
  (fit_encoders_loop columns (df, encoders)).1 !! name = None.
Proof.
  revert df encoders. induction columns as [|c columns IH]; intros df encoders Hn; [done|].
  rewrite fit_encoders_loop_cons.
  destruct (df !! c) as [col|] eqn:Hc.
  - rewrite (fit_encoders_step_Some _ _ _ _ Hc). apply IH.
    rewrite lookup_insert_ne; [done|]. intros ->. congruence.
  - rewrite (fit_encoders_step_None _ _ _ Hc). by apply IH.
Qed.

Lemma fit_encoders_loop_fitted columns :
  NoDup columns -> forall (df : DataFrame) encoders c col,
  c ∈ columns -> df !! c = Some col ->
  (fit_encoders_loop columns (df, encoders)).2 !! c = Some (le_fit col).
Proof.
  induction 1 as [|c0 columns Hnotin Hnd IH]; intros df encoders c col Hc Hcol.
  { by apply elem_of_nil in Hc. }
  rewrite fit_encoders_loop_cons.
  apply elem_of_cons in Hc as [->|Hc].
  - rewrite (fit_encoders_step_Some _ _ _ _ Hcol).
    rewrite fit_encoders_loop_other by done. cbn [snd]. by rewrite lookup_insert_eq.
  - assert (c <> c0) as Hne by (intros ->; done).
    destruct (df !! c0) as [col0|] eqn:Hc0.
    + rewrite (fit_encoders_step_Some _ _ _ _ Hc0).
      apply IH; [done|]. by rewrite lookup_insert_ne.
    + rewrite (fit_encoders_step_None _ _ _ Hc0). by apply IH.
Qed.

Lemma select_missing (df : DataFrame) columns (name : string) :
  name ∈ columns -> df !! name = None ->
  exists k, k ∈ columns /\ df !! k = None /\ select df columns = Err (KeyError k).
Proof.
  induction columns as [|c columns IH]; intros Hn Hnone.
  { by apply elem_of_nil in Hn. }
  assert (Hcons : select df (c :: columns)
                  = (c' ← getitem df c; Ok (c, c')) ≫= fun y =>
                    select df columns ≫= fun k => Ok (y :: k)) by reflexivity.
  rewrite Hcons. unfold getitem at 1.
  destruct (df !! c) as [col|] eqn:Hc.
  - apply elem_of_cons in Hn as [->|Hn]; [congruence|].
    destruct (IH Hn Hnone) as (k & Hk & Hkn & Hsel).
    exists k. split; [by right|]. split; [done|].
    rewrite Hsel. reflexivity.
  - exists c. split; [by left|]. by split.
Qed.

(** X4.  What [prepare_model_data(df, fit_encoders=True)] returns does not
    depend on the processor it is called on: a fit forgets every earlier
    fit; and when it returns a matrix, the scaler it leaves is the same
    too. *)
Theorem X4_fit_forgets_the_earlier_state (fsqrt : Q -> Q) (df : DataFrame)
  (self other : DataProcessor) :
  (prepare_model_data fsqrt df true self).1
  = (prepare_model_data fsqrt df true other).1 /\
  (is_ok (prepare_model_data fsqrt df true self).1 = true ->
   scaler (prepare_model_data fsqrt df true self).2
   = scaler (prepare_model_data fsqrt df true other).2).
Proof.
  unfold prepare_model_data.
  pose proof (fit_encoders_loop_frame categorical_columns df
                (label_encoders self) (label_encoders other)) as Hframe.
  destruct (fit_encoders_loop categorical_columns (df, label_encoders self))
    as [df1 e1].
  destruct (fit_encoders_loop categorical_columns (df, label_encoders other))
    as [df2 e2].
  cbn [fst] in Hframe. subst df2.
  destruct (select df1 feature_columns) as [X|e]; [|by split].
  match goal with
  | |- context [match ?scaled with Ok _ => _ | Err _ => _ end] =>
      destruct scaled as [cols|e]; [|by split]
  end.
  by destruct (labels df1).
Qed.

(** X5.  When the frame lacks a feature column,
    [prepare_model_data(df, fit_encoders=True)] raises [KeyError], but the
    processor is already changed: every categorical column of the frame has
    its new encoder, while the scaler is still the old one. *)
Theorem X5_failed_fit_keeps_new_encoders (fsqrt : Q -> Q) (df : DataFrame)
  (self : DataProcessor) (name : string)
  (Hname : name ∈ feature_columns) (Hmissing : df !! name = None) :
  (exists k, (prepare_model_data fsqrt df true self).1 = Err (KeyError k)) /\
  scaler (prepare_model_data fsqrt df true self).2 = scaler self /\
  forall c col, c ∈ categorical_columns -> df !! c = Some col ->
    label_encoders (prepare_model_data fsqrt df true self).2 !! c
    = Some (le_fit col).
Proof.
  unfold prepare_model_data.
  pose proof (fit_encoders_loop_frame_None categorical_columns df
                (label_encoders self) name Hmissing) as Hnone.
  pose proof (fit_encoders_loop_fitted _ NoDup_categorical_columns df
                (label_encoders self)) as Hfitted.
  destruct (fit_encoders_loop categorical_columns (df, label_encoders self))
    as [df1 e1]. cbn [fst snd] in *.
  destruct (select_missing df1 feature_columns name Hname Hnone)
    as (k & Hk & Hkn & Hsel).
  rewrite Hsel. cbn [fst snd scaler label_encoders].
  split; [by exists k|]. by split.
Qed.

Lemma X5_failed_fit_keeps_new_encoders_witness :
  (exists k, (prepare_model_data sqrt_exact frame_without_year true init).1
             = Err (KeyError k)) /\
  scaler (prepare_model_data sqrt_exact frame_without_year true init).2 = None /\
  forall c col, c ∈ categorical_columns -> frame_without_year !! c = Some col ->
    label_encoders (prepare_model_data sqrt_exact frame_without_year true init).2 !! c
    = Some (le_fit col).
Proof.
  apply (X5_failed_fit_keeps_new_encoders sqrt_exact frame_without_year init "year").
  - vm_compute. repeat constructor.
  - vm_compute; reflexivity.
Defined.

End PipelineFacts.
